(** * Elevator safety self-inspection: checklist executor and safety analyzer

    A shallow embedding of [src/inspection/checklist.py] (class
    [SafetyChecklist]) and [src/inspection/safety_analyzer.py] (class
    [SafetyAnalyzer]), and the properties the specification states about
    them.

    Python dictionaries are finite maps from strings to Python values,
    exceptions are explicit outcomes, and the hardware interface and the
    clock are operations on an abstract world state that is threaded
    through the run. Logging has no part in what the functions return and
    is left out, except for the dictionary lookups its messages make.
    Finite floats are carried by their exact rational value; comparisons
    are exact, and float arithmetic rounds through an abstract rounding
    function. The texts of [TypeError] are those of CPython 3.11 to
    3.13. *)

From Stdlib Require Import QArith Qround Lqa.
From stdpp Require Import gmap strings list fin_maps.

Set Warnings "-register-all".
Set Default Proof Using "Type".

(** ** Python values *)

Module Py.

(** A [float]: a finite value, carried by its exact rational value, an
    infinity or a NaN. *)
Inductive pyfloat : Type :=
| FFin (q : Q)
| FInf
| FNegInf
| FNaN.

(** The values that configuration files, sensors and results carry. *)
Inductive pyval : Type :=
| PNone
| PBool (b : bool)
| PInt (z : Z)
| PFloat (f : pyfloat)
| PStr (s : string)
| PDict (d : gmap string pyval).

Abbreviation dict := (gmap string pyval).

(** The exceptions of the model, all of them subclasses of [Exception].
    [Exception msg] stands for any other exception a collaborator raises,
    by its message. *)
Inductive exn : Type :=
| KeyError (key : string)
| TypeError (msg : string)
| ZeroDivisionError
| Exception (msg : string).

(** [str(e)]. For a [KeyError] it is the [repr] of the key; the keys this
    program looks up are plain identifiers, whose [repr] is the key between
    single quotes. The [repr] of a key with an apostrophe, a backslash or a
    character outside printable ASCII is written otherwise and is not
    modelled: [text_modelled] tells where [str_exn] is the text Python
    gives. *)
Definition str_exn (e : exn) : string :=
  match e with
  | KeyError k => "'" +:+ k +:+ "'"
  | TypeError msg => msg
  | ZeroDivisionError => "division by zero"
  | Exception msg => msg
  end.




(** What an expression evaluates to: a value, or a raised exception. *)
Inductive outcome (A : Type) : Type :=
| Ok (a : A)
| Raise (e : exn).
Arguments Ok {A} a.
Arguments Raise {A} e.

Definition obind {A B} (o : outcome A) (k : A -> outcome B) : outcome B :=
  match o with
  | Ok a => k a
  | Raise e => Raise e
  end.

(** [type(v).__name__] *)
Definition type_name (v : pyval) : string :=
  match v with
  | PNone => "NoneType"
  | PBool _ => "bool"
  | PInt _ => "int"
  | PFloat _ => "float"
  | PStr _ => "str"
  | PDict _ => "dict"
  end.

(** The numeric value of a [bool], [int] or [float]; [bool] is a subclass
    of [int]. *)
Definition as_number (v : pyval) : option pyfloat :=
  match v with
  | PBool b => Some (FFin (if b then 1 else 0))
  | PInt z => Some (FFin (inject_Z z))
  | PFloat f => Some f
  | _ => None
  end.

Definition Qlt_bool (a b : Q) : bool := negb (Qle_bool b a).

(** [<] on numbers: exact on finite values (Python compares an [int] with
    a [float] by value), always false when a NaN is involved. *)
Definition float_lt (a b : pyfloat) : bool :=
  match a, b with
  | FNaN, _ | _, FNaN => false
  | FFin x, FFin y => Qlt_bool x y
  | FNegInf, FNegInf => false
  | FNegInf, _ => true
  | FFin _, FInf => true
  | _, _ => false
  end.

Definition not_supported (op : string) (v w : pyval) : exn :=
  TypeError ("'" +:+ op +:+ "' not supported between instances of '"
             +:+ type_name v +:+ "' and '" +:+ type_name w +:+ "'").

(** [v < w] *)
Definition py_lt (v w : pyval) : outcome bool :=
  match as_number v, as_number w with
  | Some a, Some b => Ok (float_lt a b)
  | _, _ =>
      match v, w with
      | PStr s, PStr t => Ok (String.ltb s t)
      | _, _ => Raise (not_supported "<" v w)
      end
  end.

(** [v > w] *)
Definition py_gt (v w : pyval) : outcome bool :=
  match as_number v, as_number w with
  | Some a, Some b => Ok (float_lt b a)
  | _, _ =>
      match v, w with
      | PStr s, PStr t => Ok (String.ltb t s)
      | _, _ => Raise (not_supported ">" v w)
      end
  end.

(** [v == s] for a string literal [s] *)
Definition py_eq_str (v : pyval) (s : string) : bool :=
  match v with
  | PStr s' => String.eqb s' s
  | _ => false
  end.

(** Truth value of [v], as taken by [if] and the conditional expression. *)
Definition truthy (v : pyval) : bool :=
  match v with
  | PNone => false
  | PBool b => b
  | PInt z => negb (Z.eqb z 0)
  | PFloat (FFin q) => negb (Qeq_bool q 0)
  | PFloat _ => true
  | PStr s => negb (String.eqb s "")
  | PDict d => negb (Nat.eqb (size d) 0)
  end.

(** [d[k]] on a dictionary *)
Definition getitem (d : dict) (k : string) : outcome pyval :=
  match d !! k with
  | Some v => Ok v
  | None => Raise (KeyError k)
  end.

(** [d.get(k, default)] *)
Definition get (d : dict) (k : string) (default : pyval) : pyval :=
  match d !! k with
  | Some v => v
  | None => default
  end.

(** [k in v] for a string [k]: key membership in a dictionary, substring
    test in a string. *)
Definition contains (k : string) (v : pyval) : outcome bool :=
  match v with
  | PDict d => Ok (bool_decide (is_Some (d !! k)))
  | PStr s => Ok (match String.index 0 k s with Some _ => true | None => false end)
  | _ => Raise (TypeError ("argument of type '" +:+ type_name v +:+ "' is not iterable"))
  end.

(** [v[k]] for a string [k] *)
Definition subscript (v : pyval) (k : string) : outcome pyval :=
  match v with
  | PDict d => getitem d k
  | PStr _ => Raise (TypeError "string indices must be integers, not 'str'")
  | _ => Raise (TypeError ("'" +:+ type_name v +:+ "' object is not subscriptable"))
  end.

End Py.
Import Py.

Declare Scope outcome_scope.
Notation "x <- c1 ;; c2" := (obind c1 (fun x => c2))
  (at level 100, c1 at next level, right associativity) : outcome_scope.
Delimit Scope outcome_scope with outcome.

(** ** Threshold evaluation: [SafetyChecklist._evaluate_sensor_reading] *)

(** [k in thresholds and value < thresholds[k]]: the subscript and the
    comparison are evaluated only when the key is there. *)
Definition below (value thresholds : pyval) (k : string) : outcome bool :=
  (present <- contains k thresholds ;;
   if present : bool then bound <- subscript thresholds k ;; py_lt value bound
   else Ok false)%outcome.

(** [k in thresholds and value > thresholds[k]] *)
Definition above (value thresholds : pyval) (k : string) : outcome bool :=
  (present <- contains k thresholds ;;
   if present : bool then bound <- subscript thresholds k ;; py_gt value bound
   else Ok false)%outcome.

Definition _evaluate_sensor_reading (value thresholds : pyval) : outcome string :=
  (c1 <- below value thresholds "min_critical" ;;
   if c1 : bool then Ok "fail" else
   c2 <- above value thresholds "max_critical" ;;
   if c2 : bool then Ok "fail" else
   c3 <- below value thresholds "min_warning" ;;
   if c3 : bool then Ok "warning" else
   c4 <- above value thresholds "max_warning" ;;
   if c4 : bool then Ok "warning" else
   Ok "pass")%outcome.

(** The specification's reading of the same function: a record of four
    optional bounds, tried in the order minCritical, maxCritical,
    minWarning, maxWarning; the first violated bound decides. *)
Record thresholds : Type := {
  minCritical : option pyfloat;
  maxCritical : option pyfloat;
  minWarning : option pyfloat;
  maxWarning : option pyfloat
}.

Definition violates_min (value : pyfloat) (bound : option pyfloat) : bool :=
  match bound with
  | Some m => float_lt value m
  | None => false
  end.

Definition violates_max (value : pyfloat) (bound : option pyfloat) : bool :=
  match bound with
  | Some m => float_lt m value
  | None => false
  end.

Definition threshold_status (value : pyfloat) (t : thresholds) : string :=
  if violates_min value (minCritical t) then "fail"
  else if violates_max value (maxCritical t) then "fail"
  else if violates_min value (minWarning t) then "warning"
  else if violates_max value (maxWarning t) then "warning"
  else "pass".

Definition bound_keys : list string :=
  ["min_critical"; "max_critical"; "min_warning"; "max_warning"].

(** The bound a dictionary gives for a key, when it is there and numeric. *)
Definition bound_of (d : dict) (k : string) : option pyfloat :=
  match d !! k with
  | Some v => as_number v
  | None => None
  end.

Definition thresholds_of (d : dict) : thresholds :=
  {| minCritical := bound_of d "min_critical";
     maxCritical := bound_of d "max_critical";
     minWarning := bound_of d "min_warning";
     maxWarning := bound_of d "max_warning" |}.

(** Every bound key that is present holds a number. *)
Definition numeric_bounds (d : dict) : bool :=
  forallb (fun k => match d !! k with
                    | Some v => match as_number v with Some _ => true | None => false end
                    | None => true
                    end) bound_keys.

(** ** The world around a run: hardware interface and clock *)

(** The elevator interface the checklist is run against, and the clock
    read by [datetime.now().isoformat()]. Both act on a world state [W];
    a hardware call returns a value or raises, and may change the world
    either way. The argument is the value found under the item's
    [sensor_id] or [component_id]. *)
Class ElevatorInterface (W : Type) : Type := {
  get_sensor_reading : pyval -> W -> outcome pyval * W;
  test_mechanical_component : pyval -> W -> outcome pyval * W;
  now_isoformat : W -> string * W
}.

(** Statements that read and write a state [S] and may raise. *)
Definition stateful (S A : Type) : Type := S -> outcome A * S.

Definition sret {S A} (a : A) : stateful S A := fun s => (Ok a, s).

Definition sbind {S A B} (c : stateful S A) (k : A -> stateful S B) : stateful S B :=
  fun s => match c s with
           | (Ok a, s') => k a s'
           | (Raise e, s') => (Raise e, s')
           end.

(** A pure expression evaluated inside a statement. *)
Definition eval {S A} (o : outcome A) : stateful S A := fun s => (o, s).

(** [try: body / except Exception as e: handler e]. Every exception of the
    model is an [Exception]; what the body did to the state before it
    raised stays done. *)
Definition try_except {S A} (body : stateful S A) (handler : exn -> stateful S A)
  : stateful S A :=
  fun s => match body s with
           | (Ok a, s') => (Ok a, s')
           | (Raise e, s') => handler e s'
           end.

Declare Scope stateful_scope.
Delimit Scope stateful_scope with stateful.
Notation "x <- c1 ;; c2" := (sbind c1 (fun x => c2))
  (at level 100, c1 at next level, right associativity) : stateful_scope.
Notation "c1 ;; c2" := (sbind c1 (fun _ => c2))
  (at level 100, right associativity) : stateful_scope.

Fixpoint for_each {S A} (xs : list A) (body : A -> stateful S unit) : stateful S unit :=
  match xs with
  | [] => sret tt
  | x :: rest => (body x ;; for_each rest body)%stateful
  end.

(** ** The checklist executor: [SafetyChecklist.run_inspection] *)

Section Executor.
Context {W : Type} {elevator_interface : ElevatorInterface W}.

(** The state of a run: the world and the local list [results]. *)
Definition run_state : Type := W * list dict.

Definition hardware {A} (call : W -> outcome A * W) : stateful run_state A :=
  fun '(w, results) => let (o, w') := call w in (o, (w', results)).

Definition now : stateful run_state string :=
  fun '(w, results) => let (t, w') := now_isoformat w in (Ok t, (w', results)).

(** [results.append(r)] *)
Definition append (r : dict) : stateful run_state unit :=
  fun '(w, results) => (Ok tt, (w, (results ++ [r])%list)).

(** The chain [if item['type'] == 'sensor': ... elif ... else: ...], which
    binds [value] and [status]. The call arguments are evaluated before
    the call, so [item['sensor_id']] is looked up before the sensor is
    read and [item['thresholds']] after it. *)
Definition dispatch (item : dict) : stateful run_state (pyval * string) :=
  (ty <- eval (getitem item "type") ;;
   if py_eq_str ty "sensor" then
     sensor_id <- eval (getitem item "sensor_id") ;;
     value <- hardware (get_sensor_reading sensor_id) ;;
     thresholds <- eval (getitem item "thresholds") ;;
     status <- eval (_evaluate_sensor_reading value thresholds) ;;
     sret (value, status)
   else
   ty <- eval (getitem item "type") ;;
   if py_eq_str ty "visual" then
     sret (PStr "SIMULATED VISUAL INSPECTION", "pass")
   else
   ty <- eval (getitem item "type") ;;
   if py_eq_str ty "mechanical" then
     component_id <- eval (getitem item "component_id") ;;
     value <- hardware (test_mechanical_component component_id) ;;
     sret (value, if truthy value then "pass" else "fail")
   else
     eval (getitem item "type") ;;   (* the message of logger.warning *)
     sret (PNone, "skipped"))%stateful.

(** The body of the [try]. *)
Definition try_body (item : dict) : stateful run_state unit :=
  (bound <- dispatch item ;;
   let '(value, status) := bound : pyval * string in
   item_id <- eval (getitem item "id") ;;
   name <- eval (getitem item "name") ;;
   ty <- eval (getitem item "type") ;;
   timestamp <- now ;;
   append (list_to_map
     [("item_id", item_id); ("name", name); ("type", ty); ("value", value);
      ("status", PStr status); ("timestamp", PStr timestamp);
      ("category", get item "category" (PStr "general"));
      ("criticality", get item "criticality" (PStr "normal"))]) ;;
   eval (getitem item "name") ;;    (* the message of logger.debug *)
   sret tt)%stateful.

(** The [except Exception as e] clause. *)
Definition except_clause (item : dict) (e : exn) : stateful run_state unit :=
  (eval (getitem item "name") ;;    (* the message of logger.error *)
   item_id <- eval (getitem item "id") ;;
   name <- eval (getitem item "name") ;;
   ty <- eval (getitem item "type") ;;
   timestamp <- now ;;
   append (list_to_map
     [("item_id", item_id); ("name", name); ("type", ty); ("value", PNone);
      ("status", PStr "error"); ("timestamp", PStr timestamp);
      ("category", get item "category" (PStr "general"));
      ("criticality", get item "criticality" (PStr "normal"));
      ("error", PStr (str_exn e))]))%stateful.

(** The body of the [for] loop. *)
Definition inspect (item : dict) : stateful run_state unit :=
  (eval (getitem item "name") ;;    (* the message of logger.info *)
   try_except (try_body item) (except_clause item))%stateful.

Definition run_inspection (checklist_items : list dict) (w : W)
  : outcome (list dict) * W :=
  let '(o, (w', results)) := for_each checklist_items inspect (w, []) in
  (match o with
   | Ok _ => Ok results
   | Raise e => Raise e
   end, w').

End Executor.

(** ** Float arithmetic *)

(** A [float] operation returns the exact result rounded to the nearest
    binary64 number. The rounding is kept abstract: all that is used is
    that it is monotone and leaves 0, 1 and 100, which are binary64
    numbers, as they are. *)
Class Rounding : Type := {
  rnd : Q -> Q;
  rnd_monotone : forall a b : Q, (a <= b)%Q -> (rnd a <= rnd b)%Q;
  rnd_0 : (rnd 0 == 0)%Q;
  rnd_1 : (rnd 1 == 1)%Q;
  rnd_100 : (rnd 100 == 100)%Q
}.

(** Exact arithmetic is one such rounding. *)
#[export] Instance exact_rounding : Rounding.
Proof.
  refine {| rnd := fun q => q |}.
  - intros a b Hab. exact Hab.
  - reflexivity.
  - reflexivity.
  - reflexivity.
Defined.

(** Rounding down to a multiple of [2^-52] is another, and not exact:
    a third becomes [1501199875790165 / 2^52]. *)
Definition grid : Q := inject_Z (2 ^ 52).

Definition round_down (q : Q) : Q := (inject_Z (Qfloor (q * grid)) / grid)%Q.

#[export] Instance truncating : Rounding.
Proof.
  refine {| rnd := round_down |}.
  - intros a b Hab. unfold round_down, Qdiv.
    apply Qmult_le_compat_r; [|discriminate].
    rewrite <- Zle_Qle. apply Qfloor_resp_le.
    apply Qmult_le_compat_r; [exact Hab | discriminate].
  - reflexivity.
  - reflexivity.
  - reflexivity.
Defined.

Section FloatOps.
Context {rounding : Rounding}.

(** [a / b] on two [int]s: true division, a [float]. *)
Definition int_truediv (a b : nat) : outcome pyfloat :=
  match b with
  | O => Raise ZeroDivisionError
  | _ => Ok (FFin (rnd (inject_Z (Z.of_nat a) / inject_Z (Z.of_nat b))))
  end.

(** [x * n] for a [float] [x] and an [int] [n]. Overflow of a finite
    product to an infinity is left out. *)
Definition float_mul_int (x : pyfloat) (n : Z) : pyfloat :=
  match x with
  | FFin q => FFin (rnd (q * inject_Z n))
  | FInf => if (0 <? n)%Z then FInf else if (n <? 0)%Z then FNegInf else FNaN
  | FNegInf => if (0 <? n)%Z then FNegInf else if (n <? 0)%Z then FInf else FNaN
  | FNaN => FNaN
  end.

End FloatOps.

(** ** The safety analyzer: [SafetyAnalyzer.analyze] *)

(** The local variables the loop of [analyze] updates. *)
Module Loop.
Record tally : Type := {
  critical_issues : nat;
  warnings : nat;
  passed : nat;
  errors : nat;
  critical_items : list dict;
  warning_items : list dict;
  error_items : list dict
}.

Definition start : tally :=
  {| critical_issues := 0; warnings := 0; passed := 0; errors := 0;
     critical_items := []; warning_items := []; error_items := [] |}.
End Loop.

(** The dictionary [analyze] returns, by its keys. *)
Record analysis : Type := {
  summary : string;
  safety_level : string;
  action_required : string;
  critical_issues : nat;
  warnings : nat;
  passed : nat;
  errors : nat;
  compliance_percentage : pyval;
  critical_items : list dict;
  warning_items : list dict;
  error_items : list dict;
  total_checks : nat
}.

(** The entry appended to [critical_items] and to [warning_items]. *)
Definition issue_entry (result : dict) : outcome dict :=
  (name <- getitem result "name" ;;
   value <- getitem result "value" ;;
   Ok (list_to_map
     [("name", name); ("value", value);
      ("category", get result "category" (PStr "general"))]))%outcome.

(** The entry appended to [error_items]. *)
Definition error_entry (result : dict) : outcome dict :=
  (name <- getitem result "name" ;;
   Ok (list_to_map
     [("name", name); ("error", get result "error" (PStr "Unknown error"));
      ("category", get result "category" (PStr "general"))]))%outcome.

(** The body of [for result in inspection_results]. *)
Definition tally_result (t : Loop.tally) (result : dict) : outcome Loop.tally :=
  (status <- getitem result "status" ;;
   if py_eq_str status "fail" then
     entry <- issue_entry result ;;
     Ok {| Loop.critical_issues := Loop.critical_issues t + 1;
           Loop.warnings := Loop.warnings t;
           Loop.passed := Loop.passed t;
           Loop.errors := Loop.errors t;
           Loop.critical_items := Loop.critical_items t ++ [entry];
           Loop.warning_items := Loop.warning_items t;
           Loop.error_items := Loop.error_items t |}
   else
   status <- getitem result "status" ;;
   if py_eq_str status "warning" then
     entry <- issue_entry result ;;
     Ok {| Loop.critical_issues := Loop.critical_issues t;
           Loop.warnings := Loop.warnings t + 1;
           Loop.passed := Loop.passed t;
           Loop.errors := Loop.errors t;
           Loop.critical_items := Loop.critical_items t;
           Loop.warning_items := Loop.warning_items t ++ [entry];
           Loop.error_items := Loop.error_items t |}
   else
   status <- getitem result "status" ;;
   if py_eq_str status "pass" then
     Ok {| Loop.critical_issues := Loop.critical_issues t;
           Loop.warnings := Loop.warnings t;
           Loop.passed := Loop.passed t + 1;
           Loop.errors := Loop.errors t;
           Loop.critical_items := Loop.critical_items t;
           Loop.warning_items := Loop.warning_items t;
           Loop.error_items := Loop.error_items t |}
   else
   status <- getitem result "status" ;;
   if py_eq_str status "error" then
     entry <- error_entry result ;;
     Ok {| Loop.critical_issues := Loop.critical_issues t;
           Loop.warnings := Loop.warnings t;
           Loop.passed := Loop.passed t;
           Loop.errors := Loop.errors t + 1;
           Loop.critical_items := Loop.critical_items t;
           Loop.warning_items := Loop.warning_items t;
           Loop.error_items := Loop.error_items t ++ [entry] |}
   else Ok t)%outcome.

Fixpoint tally_all (t : Loop.tally) (inspection_results : list dict)
  : outcome Loop.tally :=
  match inspection_results with
  | [] => Ok t
  | result :: rest => (t' <- tally_result t result ;; tally_all t' rest)%outcome
  end.

(** [summary], [action_required] and [safety_level], bound by the chain
    [if critical_issues > 0: ... elif warnings > 0: ... elif errors > 0:
    ... else: ...]. *)
Definition classify (t : Loop.tally) : string * string * string :=
  if (0 <? Loop.critical_issues t)%nat then
    ("UNSAFE - Critical issues detected",
     "Immediate maintenance required. Elevator should not be used until fixed.",
     "critical")
  else if (0 <? Loop.warnings t)%nat then
    ("CAUTION - Warnings detected",
     "Schedule maintenance soon to address warnings.",
     "warning")
  else if (0 <? Loop.errors t)%nat then
    ("INCOMPLETE - Inspection errors",
     "Some tests failed to complete. Re-inspection recommended.",
     "incomplete")
  else
    ("SAFE - All checks passed",
     "Regular maintenance schedule can be followed.",
     "safe").

Section Analyzer.
Context {rounding : Rounding}.

(** [(passed / total_checks * 100) if total_checks > 0 else 0], where the
    local [total_checks] is [critical_issues + warnings + passed]. *)
Definition compliance (t : Loop.tally) : outcome pyval :=
  let total_checks := Loop.critical_issues t + Loop.warnings t + Loop.passed t in
  if (0 <? total_checks)%nat then
    (ratio <- int_truediv (Loop.passed t) total_checks ;;
     Ok (PFloat (float_mul_int ratio 100)))%outcome
  else Ok (PInt 0).

Definition analyze (inspection_results : list dict) : outcome analysis :=
  (t <- tally_all Loop.start inspection_results ;;
   let '(summary, action_required, safety_level) := classify t in
   compliance_percentage <- compliance t ;;
   Ok {| summary := summary;
         safety_level := safety_level;
         action_required := action_required;
         critical_issues := Loop.critical_issues t;
         warnings := Loop.warnings t;
         passed := Loop.passed t;
         errors := Loop.errors t;
         compliance_percentage := compliance_percentage;
         critical_items := Loop.critical_items t;
         warning_items := Loop.warning_items t;
         error_items := Loop.error_items t;
         total_checks := length inspection_results |})%outcome.

End Analyzer.

(** ** A mock elevator, as the unit tests build one *)

Module Mock.

(** What each hardware method answers for an argument, and the calls made
    so far; the clock is stopped. *)
Record world : Type := {
  sensor : pyval -> outcome pyval;
  component : pyval -> outcome pyval;
  calls : list (string * pyval)
}.

Definition record_call (method : string) (arg : pyval) (w : world) : world :=
  {| sensor := sensor w; component := component w;
     calls := calls w ++ [(method, arg)] |}.

#[global] Instance elevator : ElevatorInterface world := {|
  get_sensor_reading := fun sensor_id w =>
    (sensor w sensor_id, record_call "get_sensor_reading" sensor_id w);
  test_mechanical_component := fun component_id w =>
    (component w component_id, record_call "test_mechanical_component" component_id w);
  now_isoformat := fun w => ("2024-01-01T00:00:00", w)
|}.

(** [return_value = v] on both methods *)
Definition returning (reading verdict : pyval) : world :=
  {| sensor := fun _ => Ok reading; component := fun _ => Ok verdict; calls := [] |}.

(** [get_sensor_reading.side_effect = Exception(msg)] *)
Definition failing_sensor (msg : string) (verdict : pyval) : world :=
  {| sensor := fun _ => Raise (Exception msg); component := fun _ => Ok verdict;
     calls := [] |}.

(** The sensor named [bad] raises, every other one returns [reading]. *)
Definition one_bad_sensor (bad msg : string) (reading verdict : pyval) : world :=
  {| sensor := fun sensor_id =>
       if py_eq_str sensor_id bad then Raise (Exception msg) else Ok reading;
     component := fun _ => Ok verdict; calls := [] |}.

End Mock.

(** ** Checklist items of the tests and of the default configuration *)

Definition float_of (num : Z) (den : positive) : pyval := PFloat (FFin (num # den)).

Definition test_sensor : dict := list_to_map
  [("id", PStr "test_sensor"); ("name", PStr "Test Sensor"); ("type", PStr "sensor");
   ("sensor_id", PStr "test_sensor_1"); ("category", PStr "test");
   ("criticality", PStr "high");
   ("thresholds", PDict (list_to_map
      [("min_warning", PInt 10); ("max_warning", PInt 50); ("max_critical", PInt 70)]))].

Definition test_visual : dict := list_to_map
  [("id", PStr "test_visual"); ("name", PStr "Test Visual"); ("type", PStr "visual");
   ("category", PStr "test"); ("criticality", PStr "medium")].

Definition test_mechanical : dict := list_to_map
  [("id", PStr "test_mechanical"); ("name", PStr "Test Mechanical");
   ("type", PStr "mechanical"); ("component_id", PStr "test_component");
   ("category", PStr "test"); ("criticality", PStr "critical")].

(** [door_operation] of [get_default_config]: a sensor item that has no
    [thresholds]. *)
Definition door_operation : dict := list_to_map
  [("id", PStr "door_operation"); ("name", PStr "Door Operation");
   ("type", PStr "sensor"); ("sensor_id", PStr "door_sensor");
   ("category", PStr "safety"); ("criticality", PStr "critical")].

(** [weight_sensor] of [get_default_config] *)
Definition weight_sensor : dict := list_to_map
  [("id", PStr "weight_sensor"); ("name", PStr "Weight Sensor Calibration");
   ("type", PStr "sensor"); ("sensor_id", PStr "weight");
   ("category", PStr "operational"); ("criticality", PStr "high");
   ("thresholds", PDict (list_to_map [("max_critical", PInt 1050)]))].

(** An item of a kind the executor does not know. *)
Definition acoustic_item : dict := list_to_map
  [("id", PStr "cabin_noise"); ("name", PStr "Cabin Noise"); ("type", PStr "acoustic")].

(** ** Vocabulary of the properties *)

Definition has_key (k : string) (d : dict) : bool :=
  match d !! k with
  | Some _ => true
  | None => false
  end.

(** A checklist item of the data model: it has its [id], [name] and
    [type]. *)
Definition item_ok (item : dict) : bool :=
  has_key "id" item && has_key "name" item && has_key "type" item.

(** A check result of the data model: it has its [status], [name] and
    [value]. *)
Definition is_check_result (result : dict) : bool :=
  has_key "status" result && has_key "name" result && has_key "value" result.

Definition has_status (s : string) (result : dict) : bool :=
  match result !! "status" with
  | Some v => py_eq_str v s
  | None => false
  end.

(** A status is one of the four tallied ones, or none of them. *)
Inductive status_kind (v : pyval) : Prop :=
| IsFail : v = PStr "fail" -> status_kind v
| IsWarning : v = PStr "warning" -> status_kind v
| IsPass : v = PStr "pass" -> status_kind v
| IsError : v = PStr "error" -> status_kind v
| IsOther : py_eq_str v "fail" = false -> py_eq_str v "warning" = false ->
            py_eq_str v "pass" = false -> py_eq_str v "error" = false ->
            status_kind v.

(** The results with a given status, in the order of the input. *)
Definition with_status (s : string) (results : list dict) : list dict :=
  List.filter (has_status s) results.

Definition count_status (s : string) (results : list dict) : nat :=
  length (with_status s results).

(** [{name, value, category}] of a result *)
Definition issue_of (result : dict) : dict :=
  list_to_map
    [("name", get result "name" PNone); ("value", get result "value" PNone);
     ("category", get result "category" (PStr "general"))].

(** [{name, error, category}] of a result *)
Definition error_of (result : dict) : dict :=
  list_to_map
    [("name", get result "name" PNone);
     ("error", get result "error" (PStr "Unknown error"));
     ("category", get result "category" (PStr "general"))].

(** The loop variables after [results] have been tallied from [t]: each
    counter grows by the number of results with its status, each list by
    the entries of those results, in order. *)
Definition tallied (t : Loop.tally) (results : list dict) : Loop.tally :=
  {| Loop.critical_issues := Loop.critical_issues t + count_status "fail" results;
     Loop.warnings := Loop.warnings t + count_status "warning" results;
     Loop.passed := Loop.passed t + count_status "pass" results;
     Loop.errors := Loop.errors t + count_status "error" results;
     Loop.critical_items :=
       Loop.critical_items t ++ map issue_of (with_status "fail" results);
     Loop.warning_items :=
       Loop.warning_items t ++ map issue_of (with_status "warning" results);
     Loop.error_items :=
       Loop.error_items t ++ map error_of (with_status "error" results) |}.

(** The results the compliance percentage looks at: all but those with
    status [error] or [skipped]. *)
Definition scored (result : dict) : bool :=
  negb (has_status "error" result) && negb (has_status "skipped" result).

(** The specification's classification: the first rule that matches, in
    the order critical, warning, incomplete, safe. *)
Definition level_by_precedence (fails warns errs : nat) : string :=
  if (0 <? fails)%nat then "critical"
  else if (0 <? warns)%nat then "warning"
  else if (0 <? errs)%nat then "incomplete"
  else "safe".

Section Percentage.
Context {rounding : Rounding}.

(** The specification's percentage: [passed / denominator * 100] in float
    arithmetic, and the integer 0 when the denominator is 0. *)
Definition percentage (passed denominator : nat) : pyval :=
  match denominator with
  | O => PInt 0
  | _ => PFloat (FFin (rnd (rnd (inject_Z (Z.of_nat passed)
                                 / inject_Z (Z.of_nat denominator)) * 100)))
  end.

End Percentage.

(** The item's [type] is none of [sensor], [visual] and [mechanical]. *)
Definition unknown_kind (item : dict) : bool :=
  match item !! "type" with
  | Some ty =>
      negb (py_eq_str ty "sensor") && negb (py_eq_str ty "visual")
      && negb (py_eq_str ty "mechanical")
  | None => false
  end.

(** What a result copies from its item. *)
Definition copied_from (item result : dict) : Prop :=
  result !! "item_id" = item !! "id" /\
  result !! "name" = item !! "name" /\
  result !! "type" = item !! "type" /\
  result !! "category" = Some (get item "category" (PStr "general")) /\
  result !! "criticality" = Some (get item "criticality" (PStr "normal")).

(** The dictionary appended for an item that was checked. *)
Definition result_dict (item : dict) (value : pyval) (status timestamp : string) : dict :=
  list_to_map
    [("item_id", get item "id" PNone); ("name", get item "name" PNone);
     ("type", get item "type" PNone); ("value", value);
     ("status", PStr status); ("timestamp", PStr timestamp);
     ("category", get item "category" (PStr "general"));
     ("criticality", get item "criticality" (PStr "normal"))].

(** The dictionary appended for an item whose check raised [e]. *)
Definition error_dict (item : dict) (e : exn) (timestamp : string) : dict :=
  list_to_map
    [("item_id", get item "id" PNone); ("name", get item "name" PNone);
     ("type", get item "type" PNone); ("value", PNone);
     ("status", PStr "error"); ("timestamp", PStr timestamp);
     ("category", get item "category" (PStr "general"));
     ("criticality", get item "criticality" (PStr "normal"));
     ("error", PStr (str_exn e))].

(** Results of a run in which the weight is over its critical bound, one
    visual check passes, the brake test could not be run, and one item is
    of an unknown kind. *)
Definition sample_results : list dict :=
  [result_dict weight_sensor (PInt 1100) "fail" "2024-01-01T00:00:00";
   result_dict test_visual (PStr "SIMULATED VISUAL INSPECTION") "pass"
     "2024-01-01T00:00:00";
   error_dict test_mechanical (Exception "brake controller offline")
     "2024-01-01T00:00:00";
   result_dict acoustic_item PNone "skipped" "2024-01-01T00:00:00";
   result_dict test_sensor (PInt 55) "warning" "2024-01-01T00:00:00"].

Section RunVocabulary.
Context {W : Type} {elevator_interface : ElevatorInterface W}.


(** What [dispatch] binds or raises for an item, and the world it leaves;
    the list of results plays no part in it. *)
Definition checked (item : dict) (w : W) : outcome (pyval * string) * W :=
  let '(o, (w', _)) := dispatch item (w, []) in (o, w').

(** The result one turn of the loop appends for an item with its [id],
    [name] and [type], and the world after it. *)
Definition inspected (item : dict) (w : W) : dict * W :=
  let (o, w1) := checked item w in
  let (timestamp, w2) := now_isoformat w1 in
  (match o with
   | Ok (value, status) => result_dict item value status timestamp
   | Raise e => error_dict item e timestamp
   end, w2).

Fixpoint inspected_all (items : list dict) (w : W) : list dict * W :=
  match items with
  | [] => ([], w)
  | item :: rest =>
      let (r, w1) := inspected item w in
      let (rs, w2) := inspected_all rest w1 in
      (r :: rs, w2)
  end.

End RunVocabulary.

(** What the examples read off a run and off its analysis. *)
Definition statuses (o : outcome (list dict)) : list (option pyval) :=
  match o with
  | Ok results => map (fun r => r !! "status") results
  | Raise _ => []
  end.

Definition analyzed {rounding : Rounding} (o : outcome (list dict)) : outcome analysis :=
  match o with
  | Ok results => analyze results
  | Raise e => Raise e
  end.

(** The percentage as a fraction in lowest terms. *)
Definition percent (v : pyval) : option Q :=
  match as_number v with
  | Some (FFin q) => Some (Qred q)
  | _ => None
  end.

Definition verdict (o : outcome analysis)
  : option (string * (nat * nat * nat * nat) * option Q) :=
  match o with
  | Ok a => Some (safety_level a,
                  (critical_issues a, warnings a, passed a, errors a),
                  percent (compliance_percentage a))
  | Raise _ => None
  end.

(** ** Further vocabulary *)

(** The keys every item must have. *)
Definition identity_keys : list string := ["name"; "id"; "type"].

(** The thresholds hold at least one of the four bound keys. *)
Definition has_bound (d : dict) : bool :=
  existsb (fun k => has_key k d) bound_keys.

(** Every bound key that is present holds a finite number. *)
Definition finite_bounds (d : dict) : bool :=
  forallb (fun k => match d !! k with
                    | Some v => match as_number v with
                                | Some (FFin _) => true
                                | _ => false
                                end
                    | None => true
                    end) bound_keys.

(** [x] respects a minimum, or a maximum, when it is set. *)
Definition at_least (x : Q) (bound : option pyfloat) : Prop :=
  match bound with
  | Some (FFin m) => (m <= x)%Q
  | _ => True
  end.

Definition at_most (x : Q) (bound : option pyfloat) : Prop :=
  match bound with
  | Some (FFin m) => (x <= m)%Q
  | _ => True
  end.


(** What [analyze] reads of a result: its status, the name and value of a
    'fail' or 'warning' result, the name of an 'error' result. *)
Definition analyzable (result : dict) : bool :=
  match result !! "status" with
  | Some status =>
      if py_eq_str status "fail" || py_eq_str status "warning"
      then has_key "name" result && has_key "value" result
      else if py_eq_str status "error" then has_key "name" result
      else true
  | None => false
  end.

Definition result_keys : list string := ["status"; "name"; "value"].

(** A result whose status is none of the four that are tallied. *)
Definition untallied (result : dict) : bool :=
  match result !! "status" with
  | Some status =>
      negb (py_eq_str status "fail") && negb (py_eq_str status "warning")
      && negb (py_eq_str status "pass") && negb (py_eq_str status "error")
  | None => false
  end.

(** ** The simulated hardware: [SensorManager] and [ElevatorInterface] *)

Module Sim.

(** The literals [0.1] and [0.05], as the binary64 numbers they denote. *)
Definition one_tenth : Q := 3602879701896397 # 36028797018963968.
Definition one_twentieth : Q := 3602879701896397 # 72057594037927936.

(** The generator behind [random.random()]: the draws to come, and how
    many have been made. *)
Record rng : Type := {
  draws : nat -> Q;
  drawn : nat
}.

Definition random : stateful rng Q :=
  fun g => (Ok (draws g (drawn g)), {| draws := draws g; drawn := S (drawn g) |}).

(** [len(v)] as far as it raises or not; the length itself is only
    logged. *)
Definition sized (v : pyval) : outcome unit :=
  match v with
  | PStr _ | PDict _ => Ok tt
  | _ => Raise (TypeError ("object of type '" +:+ type_name v +:+ "' has no len()"))
  end.

Record sensor_manager : Type := {
  sensor_config : pyval;
  connected_sensors : dict
}.

(** [SensorManager.__init__] *)
Definition new_sensor_manager (config : pyval) : outcome sensor_manager :=
  (_ <- sized config ;;
   Ok {| sensor_config := config; connected_sensors := ∅ |})%outcome.

(** The dictionary stored for a connected sensor. *)
Definition sensor_entry (ty config : pyval) : pyval :=
  PDict (list_to_map [("type", ty); ("connected", PBool true); ("config", config)]).

(** One turn of the loop of [connect_sensors], with its [try]: the
    message of [logger.info] and the entry both look up [config['type']],
    and a failure leaves the sensor out and clears [success]. *)
Definition connect_one (sensor_id : string) (config : pyval) (acc : dict * bool)
  : dict * bool :=
  match (_ <- subscript config "type" ;;
         ty <- subscript config "type" ;;
         Ok (<[sensor_id := sensor_entry ty config]> acc.1))%outcome with
  | Ok connected => (connected, acc.2)
  | Raise _ => (acc.1, false)
  end.

(** [SensorManager.connect_sensors]. The loop goes over the items of the
    configuration; its turns write distinct keys, so that the order in
    which the map is folded does not show in what it returns. A
    configuration without [items] raises an [AttributeError]. *)
Definition connect_sensors (m : sensor_manager) : outcome bool * sensor_manager :=
  match sensor_config m with
  | PDict d =>
      let '(connected, success) := map_fold connect_one (connected_sensors m, true) d in
      (Ok success, {| sensor_config := sensor_config m; connected_sensors := connected |})
  | v => (Raise (Exception ("'" +:+ type_name v +:+ "' object has no attribute 'items'")),
          m)
  end.

Section Readings.
Context {rounding : Rounding}.

(** [a * b] on two floats; the overflow of a finite product is left
    out. *)
Definition float_mul (a b : pyfloat) : pyfloat :=
  match a, b with
  | FNaN, _ | _, FNaN => FNaN
  | FFin x, FFin y => FFin (rnd (x * y))
  | FFin x, FInf | FInf, FFin x =>
      if Qlt_bool 0 x then FInf else if Qlt_bool x 0 then FNegInf else FNaN
  | FFin x, FNegInf | FNegInf, FFin x =>
      if Qlt_bool 0 x then FNegInf else if Qlt_bool x 0 then FInf else FNaN
  | FInf, FInf | FNegInf, FNegInf => FInf
  | FInf, FNegInf | FNegInf, FInf => FNegInf
  end.

(** The least magnitude of an [int] that has no float: half way between
    the largest finite float, [2^1024 - 2^971], and [2^1024]. *)
Definition float_overflow : Z := 2 ^ 1024 - 2 ^ 970.

(** The conversion of an [int] operand to a float: the [int] is rounded
    to a float, and one that is too large raises an [OverflowError]. *)
Definition float_of_int (z : Z) : outcome pyfloat :=
  if (Z.abs z <? float_overflow)%Z then Ok (FFin (rnd (inject_Z z)))
  else Raise (Exception "int too large to convert to float").

(** [u * v] for a float [u] and any value [v]: an [int] (or a [bool],
    an [int] that is 0 or 1) is converted to a float first. *)
Definition float_times (u : Q) (v : pyval) : outcome pyval :=
  match v with
  | PFloat f => Ok (PFloat (float_mul (FFin u) f))
  | PInt z => (f <- float_of_int z ;; Ok (PFloat (float_mul (FFin u) f)))%outcome
  | PBool b => (f <- float_of_int (if b then 1 else 0) ;;
                Ok (PFloat (float_mul (FFin u) f)))%outcome
  | PStr _ => Raise (TypeError "can't multiply sequence by non-int of type 'float'")
  | PNone | PDict _ =>
      Raise (TypeError ("unsupported operand type(s) for *: 'float' and '"
                        +:+ type_name v +:+ "'"))
  end.

(** [base_value + (random.random() * variation)] *)
Definition spread (base_value variation : Q) : stateful rng pyval :=
  (u <- random ;;
   sret (PFloat (FFin (rnd (base_value + rnd (u * variation))))))%stateful.

Definition _simulate_temperature_reading (config : pyval) : stateful rng pyval :=
  spread 35 15.

Definition _simulate_pressure_reading (config : pyval) : stateful rng pyval :=
  spread 500 200.

Definition _simulate_vibration_reading (config : pyval) : stateful rng pyval :=
  spread 2 3.

Definition _simulate_speed_reading (config : pyval) : stateful rng pyval :=
  spread (3 # 2) (1 # 2).

(** [config.get('capacity', 1000)], then [random.random() * capacity] *)
Definition _simulate_weight_reading (config : pyval) : stateful rng pyval :=
  match config with
  | PDict c =>
      let capacity := get c "capacity" (PInt 1000) in
      (u <- random ;; eval (float_times u capacity))%stateful
  | _ => eval (Raise (Exception ("'" +:+ type_name config
                                 +:+ "' object has no attribute 'get'")))
  end.

Definition _simulate_door_sensor_reading (config : pyval) : stateful rng pyval :=
  (u <- random ;; sret (PBool (Qlt_bool one_tenth u)))%stateful.

Definition _simulate_emergency_button_reading (config : pyval) : stateful rng pyval :=
  (u <- random ;; sret (PBool (Qlt_bool one_twentieth u)))%stateful.

(** The chain [if sensor['type'] == 'temperature': ... else: value = 0]
    in the [try] of [get_reading]. *)
Definition read (sensor : pyval) : stateful rng pyval :=
  (ty <- eval (subscript sensor "type") ;;
   if py_eq_str ty "temperature" then
     config <- eval (subscript sensor "config") ;; _simulate_temperature_reading config
   else
   ty <- eval (subscript sensor "type") ;;
   if py_eq_str ty "pressure" then
     config <- eval (subscript sensor "config") ;; _simulate_pressure_reading config
   else
   ty <- eval (subscript sensor "type") ;;
   if py_eq_str ty "vibration" then
     config <- eval (subscript sensor "config") ;; _simulate_vibration_reading config
   else
   ty <- eval (subscript sensor "type") ;;
   if py_eq_str ty "speed" then
     config <- eval (subscript sensor "config") ;; _simulate_speed_reading config
   else
   ty <- eval (subscript sensor "type") ;;
   if py_eq_str ty "weight" then
     config <- eval (subscript sensor "config") ;; _simulate_weight_reading config
   else
   ty <- eval (subscript sensor "type") ;;
   if py_eq_str ty "door_sensor" then
     config <- eval (subscript sensor "config") ;; _simulate_door_sensor_reading config
   else
   ty <- eval (subscript sensor "type") ;;
   if py_eq_str ty "emergency_button" then
     config <- eval (subscript sensor "config") ;;
     _simulate_emergency_button_reading config
   else
     eval (subscript sensor "type") ;;   (* the message of logger.warning *)
     sret (PInt 0))%stateful.

(** [SensorManager.get_reading]. The membership test hashes the sensor
    id, which a dictionary does not allow; the keys are strings, so that
    no other value is among them. *)
Definition get_reading (m : sensor_manager) (sensor_id : pyval) : stateful rng pyval :=
  match sensor_id with
  | PDict _ => eval (Raise (TypeError "unhashable type: 'dict'"))
  | PStr s =>
      match connected_sensors m !! s with
      | None => sret PNone
      | Some sensor => try_except (read sensor) (fun _ => sret PNone)
      end
  | _ => sret PNone
  end.

(** The state of an [ElevatorInterface] object. *)
Record interface : Type := {
  elevator_id : pyval;
  hardware_config : dict;
  connected : bool;
  manager : sensor_manager
}.

(** [ElevatorInterface._connect] *)
Definition _connect (i : interface) : bool * interface :=
  match connect_sensors (manager i) with
  | (Ok sensor_success, m) =>
      (sensor_success,
       {| elevator_id := elevator_id i; hardware_config := hardware_config i;
          connected := sensor_success; manager := m |})
  | (Raise _, m) =>
      (false,
       {| elevator_id := elevator_id i; hardware_config := hardware_config i;
          connected := false; manager := m |})
  end.

(** [ElevatorInterface.__init__] *)
Definition new_interface (id : pyval) (config : dict) : outcome interface :=
  (m <- new_sensor_manager (get config "sensors" (PDict ∅)) ;;
   Ok (_connect {| elevator_id := id; hardware_config := config;
                   connected := false; manager := m |}).2)%outcome.

(** [ElevatorInterface.disconnect] *)
Definition disconnect (i : interface) : interface :=
  if connected i then
    {| elevator_id := elevator_id i; hardware_config := hardware_config i;
       connected := false; manager := manager i |}
  else i.

(** The world of a run against the simulated hardware: the interface
    object, the random generator and a clock that ticks at each reading
    of the time. *)
Record world : Type := {
  handle : interface;
  generator : rng;
  clock : nat -> string;
  ticks : nat
}.

Definition with_generator (w : world) (g : rng) : world :=
  {| handle := handle w; generator := g; clock := clock w; ticks := ticks w |}.

Definition using_generator {A} (c : stateful rng A) (w : world) : outcome A * world :=
  let (o, g) := c (generator w) in (o, with_generator w g).

(** [ElevatorInterface.get_sensor_reading] *)
Definition sim_get_sensor_reading (sensor_id : pyval) (w : world) : outcome pyval * world :=
  if negb (connected (handle w)) then (Ok PNone, w)
  else using_generator (get_reading (manager (handle w)) sensor_id) w.

(** [ElevatorInterface.test_mechanical_component] *)
Definition sim_test_mechanical_component (component_id : pyval) (w : world)
  : outcome pyval * world :=
  if negb (connected (handle w)) then (Ok (PBool false), w)
  else using_generator
         (u <- random ;; sret (PBool (Qlt_bool one_tenth u)))%stateful w.

#[global] Instance elevator : ElevatorInterface world := {|
  get_sensor_reading := sim_get_sensor_reading;
  test_mechanical_component := sim_test_mechanical_component;
  now_isoformat := fun w =>
    (clock w (ticks w),
     {| handle := handle w; generator := generator w; clock := clock w;
        ticks := S (ticks w) |})
|}.

End Readings.

End Sim.

(** The type a sensor configuration declares, when it has one. *)
Definition declared_type (config : pyval) : option pyval :=
  match subscript config "type" with
  | Ok ty => Some ty
  | Raise _ => None
  end.

(** What [connect_sensors] leaves under a sensor id: the entry of its
    configuration when that declares a type, else what was there. *)
Definition connected_as (d : dict) (before : dict) (sensor_id : string) : option pyval :=
  match d !! sensor_id with
  | Some config =>
      match declared_type config with
      | Some ty => Some (Sim.sensor_entry ty config)
      | None => before !! sensor_id
      end
  | None => before !! sensor_id
  end.

Definition all_typed (d : dict) : Prop :=
  forall sensor_id config, d !! sensor_id = Some config -> is_Some (declared_type config).

(** The interval the simulation draws a reading of a given type from. *)
Definition reading_range (ty : string) : option (Q * Q) :=
  if String.eqb ty "temperature" then Some (35%Q, 50%Q)
  else if String.eqb ty "pressure" then Some (500%Q, 700%Q)
  else if String.eqb ty "vibration" then Some (2%Q, 5%Q)
  else if String.eqb ty "speed" then Some ((3 # 2)%Q, 2%Q)
  else None.

(** A number the rounding leaves as it is. *)
Definition fixes {rounding : Rounding} (q : Q) : Prop := (rnd q == q)%Q.

(** A draw of [random.random()] is in [[0, 1)]. *)
Definition unit_draw (u : Q) : Prop := (0 <= u < 1)%Q.

(** The generator after one draw. *)
Definition after_draw (g : Sim.rng) : Sim.rng :=
  {| Sim.draws := Sim.draws g; Sim.drawn := S (Sim.drawn g) |}.

(** ** The default configuration: [get_default_config] *)

Definition typed_sensor (ty : string) (rest : list (string * pyval)) : pyval :=
  PDict (list_to_map (("type", PStr ty) :: rest)).

(** [hardware.sensors] *)
Definition default_sensors : dict := list_to_map
  [("temp_motor", typed_sensor "temperature"
      [("location", PStr "motor"); ("unit", PStr "celsius")]);
   ("temp_control", typed_sensor "temperature"
      [("location", PStr "control_panel"); ("unit", PStr "celsius")]);
   ("vibration_1", typed_sensor "vibration"
      [("location", PStr "motor"); ("unit", PStr "mm/s")]);
   ("speed", typed_sensor "speed" [("unit", PStr "m/s")]);
   ("weight", typed_sensor "weight" [("capacity", PInt 1000); ("unit", PStr "kg")]);
   ("door_sensor", typed_sensor "door_sensor" []);
   ("emergency_button", typed_sensor "emergency_button" [])].

Definition default_hardware : dict := list_to_map [("sensors", PDict default_sensors)].

Definition sensor_item (id name sensor_id category criticality : string)
    (bounds : list (string * pyval)) : dict :=
  list_to_map
    [("id", PStr id); ("name", PStr name); ("type", PStr "sensor");
     ("sensor_id", PStr sensor_id); ("category", PStr category);
     ("criticality", PStr criticality); ("thresholds", PDict (list_to_map bounds))].

Definition motor_temp : dict :=
  sensor_item "motor_temp" "Motor Temperature" "temp_motor" "mechanical" "high"
    [("min_warning", PInt 50); ("max_warning", PInt 70); ("max_critical", PInt 85)].

Definition control_temp : dict :=
  sensor_item "control_temp" "Control Panel Temperature" "temp_control" "electrical"
    "medium"
    [("min_warning", PInt 30); ("max_warning", PInt 60); ("max_critical", PInt 75)].

Definition vibration : dict :=
  sensor_item "vibration" "Motor Vibration" "vibration_1" "mechanical" "high"
    [("max_warning", float_of 4 1); ("max_critical", float_of 7 1)].

Definition speed_check : dict :=
  sensor_item "speed_check" "Speed Regulation" "speed" "operational" "high"
    [("min_warning", float_of 1 2); ("max_warning", float_of 2 1);
     ("max_critical", float_of 5 2)].

Definition emergency_button : dict := list_to_map
  [("id", PStr "emergency_button"); ("name", PStr "Emergency Button");
   ("type", PStr "sensor"); ("sensor_id", PStr "emergency_button");
   ("category", PStr "safety"); ("criticality", PStr "critical")].

Definition brake_test : dict := list_to_map
  [("id", PStr "brake_test"); ("name", PStr "Emergency Brake Test");
   ("type", PStr "mechanical"); ("component_id", PStr "emergency_brake");
   ("category", PStr "safety"); ("criticality", PStr "critical")].

Definition cables_visual : dict := list_to_map
  [("id", PStr "cables_visual"); ("name", PStr "Cables Visual Inspection");
   ("type", PStr "visual"); ("category", PStr "mechanical");
   ("criticality", PStr "critical")].

Definition guide_rails : dict := list_to_map
  [("id", PStr "guide_rails"); ("name", PStr "Guide Rails Inspection");
   ("type", PStr "visual"); ("category", PStr "mechanical");
   ("criticality", PStr "high")].

(** [inspection.checklist_items] *)
Definition default_checklist_items : list dict :=
  [motor_temp; control_temp; vibration; speed_check; weight_sensor; door_operation;
   emergency_button; brake_test; cables_visual; guide_rails].

(** ** Worlds of the simulated hardware, for the examples *)

(** A generator that draws a third every time, and a stopped clock. *)
Definition thirds : Sim.rng := {| Sim.draws := fun _ => 1 # 3; Sim.drawn := 0 |}.

Definition world_of (i : Sim.interface) : Sim.world :=
  {| Sim.handle := i; Sim.generator := thirds;
     Sim.clock := fun _ => "2024-01-01T00:00:00"; Sim.ticks := 0 |}.

(** The manager of the default sensors, once connected. *)
Definition default_manager : Sim.sensor_manager :=
  (Sim.connect_sensors
     {| Sim.sensor_config := PDict default_sensors; Sim.connected_sensors := ∅ |}).2.

(** The interface that [ElevatorInterface.__init__] leaves for the default
    hardware configuration, and the same after [disconnect]. *)
Definition default_interface : Sim.interface :=
  (Sim._connect
     {| Sim.elevator_id := PStr "ELEV-001"; Sim.hardware_config := default_hardware;
        Sim.connected := false;
        Sim.manager := {| Sim.sensor_config := PDict default_sensors;
                          Sim.connected_sensors := ∅ |} |}).2.

Definition unplugged : Sim.interface := Sim.disconnect default_interface.

(** * Properties *)

(** ** Threshold evaluation *)

Lemma contains_dict (d : dict) (k : string) :
  contains k (PDict d) = Ok (has_key k d).
Proof.
  unfold contains, has_key. f_equal.
  destruct (d !! k) as [v|] eqn:E.
  - apply bool_decide_eq_true. eauto.
  - apply bool_decide_eq_false. intros [v Hv]. discriminate.
Qed.

Lemma below_absent (value : pyval) (d : dict) (k : string) :
  d !! k = None -> below value (PDict d) k = Ok false.
Proof.
  intros E. unfold below. rewrite contains_dict. unfold has_key.
  rewrite E. reflexivity.
Qed.

Lemma above_absent (value : pyval) (d : dict) (k : string) :
  d !! k = None -> above value (PDict d) k = Ok false.
Proof.
  intros E. unfold above. rewrite contains_dict. unfold has_key.
  rewrite E. reflexivity.
Qed.

Lemma numeric_bounds_key (d : dict) (k : string) (v : pyval) :
  numeric_bounds d = true -> In k bound_keys -> d !! k = Some v ->
  exists m, as_number v = Some m.
Proof.
  unfold numeric_bounds. rewrite forallb_forall. intros Hall Hk E.
  specialize (Hall k Hk). rewrite E in Hall.
  destruct (as_number v) as [m|]; [eauto | discriminate].
Qed.

Lemma below_numeric (value : pyval) (x : pyfloat) (d : dict) (k : string) :
  as_number value = Some x -> numeric_bounds d = true -> In k bound_keys ->
  below value (PDict d) k = Ok (violates_min x (bound_of d k)).
Proof.
  intros Hx Hd Hk. unfold bound_of.
  destruct (d !! k) as [v|] eqn:E.
  - destruct (numeric_bounds_key d k v Hd Hk E) as [m Hm].
    unfold below. rewrite contains_dict. unfold has_key. rewrite E. simpl.
    unfold getitem. rewrite E. simpl. unfold py_lt. rewrite Hx, Hm. reflexivity.
  - rewrite (below_absent _ _ _ E). reflexivity.
Qed.

Lemma above_numeric (value : pyval) (x : pyfloat) (d : dict) (k : string) :
  as_number value = Some x -> numeric_bounds d = true -> In k bound_keys ->
  above value (PDict d) k = Ok (violates_max x (bound_of d k)).
Proof.
  intros Hx Hd Hk. unfold bound_of.
  destruct (d !! k) as [v|] eqn:E.
  - destruct (numeric_bounds_key d k v Hd Hk E) as [m Hm].
    unfold above. rewrite contains_dict. unfold has_key. rewrite E. simpl.
    unfold getitem. rewrite E. simpl. unfold py_gt. rewrite Hx, Hm. reflexivity.
  - rewrite (above_absent _ _ _ E). reflexivity.
Qed.

Lemma evaluate_refines (value : pyval) (x : pyfloat) (d : dict) :
  as_number value = Some x -> numeric_bounds d = true ->
  _evaluate_sensor_reading value (PDict d) = Ok (threshold_status x (thresholds_of d)).
Proof.
  intros Hx Hd. unfold _evaluate_sensor_reading, threshold_status, thresholds_of.
  cbn [minCritical maxCritical minWarning maxWarning].
  rewrite (below_numeric value x d "min_critical" Hx Hd) by (simpl; tauto).
  rewrite (above_numeric value x d "max_critical" Hx Hd) by (simpl; tauto).
  rewrite (below_numeric value x d "min_warning" Hx Hd) by (simpl; tauto).
  rewrite (above_numeric value x d "max_warning" Hx Hd) by (simpl; tauto).
  cbn [obind].
  destruct (violates_min x (bound_of d "min_critical")); [reflexivity|].
  destruct (violates_max x (bound_of d "max_critical")); [reflexivity|].
  destruct (violates_min x (bound_of d "min_warning")); [reflexivity|].
  destruct (violates_max x (bound_of d "max_warning")); reflexivity.
Qed.

(** C4. For a numeric value and a thresholds dictionary whose bounds are
    numbers, [_evaluate_sensor_reading] returns what the first violated
    bound in the order minCritical, maxCritical, minWarning, maxWarning
    gives, and 'pass' when none is violated. A value beyond a critical
    bound is therefore reported 'fail' whatever the warning bounds are. *)
Theorem threshold_evaluation_order (value : pyval) (x : pyfloat) (d : dict) :
  as_number value = Some x ->
  numeric_bounds d = true ->
  _evaluate_sensor_reading value (PDict d) = Ok (threshold_status x (thresholds_of d))
  /\ (violates_min x (bound_of d "min_critical") = true
      \/ violates_max x (bound_of d "max_critical") = true ->
      _evaluate_sensor_reading value (PDict d) = Ok "fail").
Proof.
  intros Hx Hd. rewrite (evaluate_refines value x d Hx Hd). split; [reflexivity|].
  unfold threshold_status, thresholds_of.
  cbn [minCritical maxCritical minWarning maxWarning].
  intros [H|H]; rewrite H; [reflexivity|].
  destruct (violates_min x (bound_of d "min_critical")); reflexivity.
Qed.

Lemma threshold_evaluation_order_witness :
  let d : dict := list_to_map [("min_critical", PInt 8); ("min_warning", PInt 10)] in
  as_number (PInt 5) = Some (FFin (inject_Z 5))
  /\ numeric_bounds d = true
  /\ _evaluate_sensor_reading (PInt 5) (PDict d)
     = Ok (threshold_status (FFin (inject_Z 5)) (thresholds_of d))
  /\ (violates_min (FFin (inject_Z 5)) (bound_of d "min_critical") = true
      \/ violates_max (FFin (inject_Z 5)) (bound_of d "max_critical") = true ->
      _evaluate_sensor_reading (PInt 5) (PDict d) = Ok "fail").
Proof.
  intros d.
  assert (Hx : as_number (PInt 5) = Some (FFin (inject_Z 5))) by reflexivity.
  assert (Hd : numeric_bounds d = true) by (vm_compute; reflexivity).
  split; [exact Hx|]. split; [exact Hd|].
  exact (threshold_evaluation_order (PInt 5) (FFin (inject_Z 5)) d Hx Hd).
Defined.

(** C7. With an empty thresholds dictionary every value passes, as does
    the reading 100; a bound key that is absent causes no check on that
    bound, whatever the value is. *)
Theorem empty_thresholds_pass :
  (forall value : pyval, _evaluate_sensor_reading value (PDict ∅) = Ok "pass")
  /\ _evaluate_sensor_reading (PInt 100) (PDict ∅) = Ok "pass"
  /\ (forall (value : pyval) (d : dict) (k : string),
        below value (PDict (delete k d)) k = Ok false
        /\ above value (PDict (delete k d)) k = Ok false).
Proof.
  assert (Hempty : forall value : pyval,
             _evaluate_sensor_reading value (PDict ∅) = Ok "pass").
  { intros value. unfold _evaluate_sensor_reading.
    rewrite !below_absent, !above_absent by apply lookup_empty. reflexivity. }
  split; [exact Hempty|]. split; [apply Hempty|].
  intros value d k. split.
  - apply below_absent, lookup_delete_eq.
  - apply above_absent, lookup_delete_eq.
Qed.

(** The cases of the unit tests, on the thresholds of [test_sensor]. *)
Example unit_test_readings :
  let thresholds := PDict (list_to_map
    [("min_warning", PInt 10); ("max_warning", PInt 50); ("max_critical", PInt 70)]) in
  _evaluate_sensor_reading (PInt 30) thresholds = Ok "pass"
  /\ _evaluate_sensor_reading (PInt 55) thresholds = Ok "warning"
  /\ _evaluate_sensor_reading (PInt 5) thresholds = Ok "warning"
  /\ _evaluate_sensor_reading (PInt 80) thresholds = Ok "fail".
Proof. repeat split; vm_compute; reflexivity. Qed.

(** ** The analyzer's loop *)

Lemma getitem_present (d : dict) (k : string) (v : pyval) :
  has_key k d = true -> getitem d k = Ok (get d k v).
Proof.
  unfold has_key, getitem, get. destruct (d !! k); [reflexivity | discriminate].
Qed.

Lemma is_check_result_keys (r : dict) :
  is_check_result r = true ->
  has_key "status" r = true /\ has_key "name" r = true /\ has_key "value" r = true.
Proof.
  unfold is_check_result. rewrite !andb_true_iff. tauto.
Qed.

Lemma issue_entry_ok (r : dict) :
  is_check_result r = true -> issue_entry r = Ok (issue_of r).
Proof.
  intros Hr. destruct (is_check_result_keys r Hr) as (_ & Hn & Hv).
  unfold issue_entry.
  rewrite (getitem_present r "name" PNone Hn), (getitem_present r "value" PNone Hv).
  reflexivity.
Qed.

Lemma error_entry_ok (r : dict) :
  is_check_result r = true -> error_entry r = Ok (error_of r).
Proof.
  intros Hr. destruct (is_check_result_keys r Hr) as (_ & Hn & _).
  unfold error_entry. rewrite (getitem_present r "name" PNone Hn). reflexivity.
Qed.

Lemma status_cases (v : pyval) : status_kind v.
Proof.
  destruct v as [| b | z | f | s | d]; try (apply IsOther; reflexivity).
  destruct (String.eqb_spec s "fail") as [->|Hf]; [apply IsFail; reflexivity|].
  destruct (String.eqb_spec s "warning") as [->|Hw]; [apply IsWarning; reflexivity|].
  destruct (String.eqb_spec s "pass") as [->|Hp]; [apply IsPass; reflexivity|].
  destruct (String.eqb_spec s "error") as [->|He]; [apply IsError; reflexivity|].
  apply IsOther; simpl; apply String.eqb_neq; assumption.
Qed.

Lemma with_status_cons (s : string) (r : dict) (rs : list dict) :
  with_status s (r :: rs)
  = if has_status s r then r :: with_status s rs else with_status s rs.
Proof. reflexivity. Qed.

Lemma count_status_cons (s : string) (r : dict) (rs : list dict) :
  count_status s (r :: rs)
  = if has_status s r then S (count_status s rs) else count_status s rs.
Proof.
  unfold count_status. rewrite with_status_cons.
  destruct (has_status s r); reflexivity.
Qed.

Lemma tally_eq (a b : Loop.tally) :
  Loop.critical_issues a = Loop.critical_issues b ->
  Loop.warnings a = Loop.warnings b ->
  Loop.passed a = Loop.passed b ->
  Loop.errors a = Loop.errors b ->
  Loop.critical_items a = Loop.critical_items b ->
  Loop.warning_items a = Loop.warning_items b ->
  Loop.error_items a = Loop.error_items b ->
  a = b.
Proof.
  destruct a, b. simpl. intros. subst. reflexivity.
Qed.

Lemma tallied_nil (t : Loop.tally) : tallied t [] = t.
Proof.
  apply tally_eq; unfold tallied, count_status, with_status; simpl;
    first [apply Nat.add_0_r | apply app_nil_r].
Qed.

(** Two tallies are compared field by field, after the head of the list
    has been tallied on the right-hand side. *)
Ltac same_tally Hhas :=
  apply tally_eq; unfold tallied;
  cbn [Loop.critical_issues Loop.warnings Loop.passed Loop.errors
       Loop.critical_items Loop.warning_items Loop.error_items];
  rewrite ?count_status_cons, ?with_status_cons, !Hhas;
  simpl py_eq_str; cbn [map]; rewrite <- ?app_assoc; simpl app;
  try reflexivity; lia.

(** One turn of the loop followed by the tally of the rest is the tally
    of the whole. *)
Lemma tally_result_tallied (t : Loop.tally) (r : dict) (rs : list dict) :
  is_check_result r = true ->
  exists t', tally_result t r = Ok t' /\ tallied t' rs = tallied t (r :: rs).
Proof.
  intros Hr. destruct (is_check_result_keys r Hr) as (Hs & _ & _).
  unfold has_key in Hs. destruct (r !! "status") as [v|] eqn:Est; [|discriminate].
  unfold tally_result, getitem. rewrite Est. cbn [obind].
  assert (Hhas : forall s, has_status s r = py_eq_str v s)
    by (intros s; unfold has_status; rewrite Est; reflexivity).
  destruct (status_cases v) as [-> | -> | -> | -> | Hf Hw Hp He].
  1-4: cbn [py_eq_str String.eqb Ascii.eqb Bool.eqb andb];
       rewrite ?(issue_entry_ok r Hr), ?(error_entry_ok r Hr); cbn [obind];
       eexists; (split; [reflexivity|]); same_tally Hhas.
  rewrite Hf, Hw, Hp, He. eexists. split; [reflexivity|].
  apply tally_eq; unfold tallied;
    cbn [Loop.critical_issues Loop.warnings Loop.passed Loop.errors
         Loop.critical_items Loop.warning_items Loop.error_items];
    rewrite ?count_status_cons, ?with_status_cons, !Hhas, ?Hf, ?Hw, ?Hp, ?He;
    reflexivity.
Qed.

Lemma tally_all_tallied (rs : list dict) (t : Loop.tally) :
  forallb is_check_result rs = true -> tally_all t rs = Ok (tallied t rs).
Proof.
  revert t. induction rs as [|r rs IH]; intros t Hall.
  - simpl. rewrite tallied_nil. reflexivity.
  - simpl in Hall. apply andb_true_iff in Hall as [Hr Hrs].
    destruct (tally_result_tallied t r rs Hr) as (t' & Hstep & Heq).
    cbn [tally_all]. rewrite Hstep. cbn [obind]. rewrite (IH t' Hrs), Heq.
    reflexivity.
Qed.

Lemma has_status_exclusive (s s' : string) (r : dict) :
  s <> s' -> has_status s r = true -> has_status s' r = false.
Proof.
  unfold has_status. intros Hne. destruct (r !! "status") as [v|]; [|discriminate].
  destruct v; try discriminate. simpl. intros H.
  apply String.eqb_eq in H. subst. apply String.eqb_neq. exact Hne.
Qed.

Lemma with_status_filter (s : string) (keep : dict -> bool) (rs : list dict) :
  (forall r, has_status s r = true -> keep r = true) ->
  with_status s (List.filter keep rs) = with_status s rs.
Proof.
  intros Hkeep. unfold with_status. induction rs as [|r rs IH]; [reflexivity|].
  simpl. destruct (keep r) eqn:Ek.
  - simpl. rewrite IH. reflexivity.
  - destruct (has_status s r) eqn:Es; [|exact IH].
    rewrite (Hkeep r Es) in Ek. discriminate.
Qed.

Lemma count_status_filter (s : string) (keep : dict -> bool) (rs : list dict) :
  (forall r, has_status s r = true -> keep r = true) ->
  count_status s (List.filter keep rs) = count_status s rs.
Proof.
  intros Hkeep. unfold count_status. rewrite with_status_filter by exact Hkeep.
  reflexivity.
Qed.

Lemma forallb_filter (P keep : dict -> bool) (rs : list dict) :
  forallb P rs = true -> forallb P (List.filter keep rs) = true.
Proof.
  induction rs as [|r rs IH]; [reflexivity|]. simpl.
  intros H. apply andb_true_iff in H as [Hr Hrs].
  destruct (keep r); simpl; rewrite ?Hr; auto.
Qed.

Lemma count_status_pos (s : string) (r : dict) (rs : list dict) :
  In r rs -> has_status s r = true -> 0 < count_status s rs.
Proof.
  intros Hin Hs. unfold count_status, with_status.
  assert (Hf : In r (List.filter (has_status s) rs)) by (apply filter_In; auto).
  destruct (List.filter (has_status s) rs); [destruct Hf | simpl; lia].
Qed.

Lemma scored_keeps (s : string) :
  s <> "error" -> s <> "skipped" ->
  forall r, has_status s r = true -> scored r = true.
Proof.
  intros He Hk r Hs. unfold scored.
  rewrite (has_status_exclusive s "error" r He Hs).
  rewrite (has_status_exclusive s "skipped" r Hk Hs). reflexivity.
Qed.

Section AnalyzerProperties.
Context {rounding : Rounding}.

Lemma compliance_percentage_of (t : Loop.tally) :
  compliance t
  = Ok (percentage (Loop.passed t)
          (Loop.critical_issues t + Loop.warnings t + Loop.passed t)).
Proof.
  unfold compliance, percentage, int_truediv, float_mul_int.
  destruct (Loop.critical_issues t + Loop.warnings t + Loop.passed t) as [|n];
    reflexivity.
Qed.

(** [analyze] returns, and what it returns is read off the tally. *)
Lemma analyze_tallied (rs : list dict) :
  forallb is_check_result rs = true ->
  let t := tallied Loop.start rs in
  analyze rs = Ok
    {| summary := (classify t).1.1;
       safety_level := (classify t).2;
       action_required := (classify t).1.2;
       critical_issues := Loop.critical_issues t;
       warnings := Loop.warnings t;
       passed := Loop.passed t;
       errors := Loop.errors t;
       compliance_percentage :=
         percentage (Loop.passed t)
           (Loop.critical_issues t + Loop.warnings t + Loop.passed t);
       critical_items := Loop.critical_items t;
       warning_items := Loop.warning_items t;
       error_items := Loop.error_items t;
       total_checks := length rs |}.
Proof.
  intros Hall t. unfold analyze. rewrite (tally_all_tallied rs Loop.start Hall).
  cbn [obind]. fold t. rewrite compliance_percentage_of.
  destruct (classify t) as [[sm ac] lv]. reflexivity.
Qed.

(** C1. The safety level is decided by the first matching rule: a 'fail'
    result makes it 'critical' (with the summary 'UNSAFE - Critical issues
    detected'), else a 'warning' result makes it 'warning', else an
    'error' result makes it 'incomplete', else it is 'safe'. One 'fail'
    among the results is enough for 'critical', whatever else is there. *)
Theorem analyzer_precedence (results : list dict) :
  forallb is_check_result results = true ->
  exists a, analyze results = Ok a
    /\ safety_level a
       = level_by_precedence (count_status "fail" results)
           (count_status "warning" results) (count_status "error" results)
    /\ (0 < count_status "fail" results ->
        summary a = "UNSAFE - Critical issues detected")
    /\ ((exists r, In r results /\ has_status "fail" r = true) ->
        safety_level a = "critical").
Proof.
  intros Hall. eexists. split; [apply (analyze_tallied results Hall)|].
  cbn [safety_level summary]. unfold classify, level_by_precedence, tallied.
  cbn [Loop.critical_issues Loop.warnings Loop.errors Loop.start Nat.add].
  assert (Hcrit : 0 < count_status "fail" results ->
                  (0 <? count_status "fail" results)%nat = true)
    by (intros H; apply Nat.ltb_lt; exact H).
  split; [|split].
  - destruct (0 <? count_status "fail" results)%nat; [reflexivity|].
    destruct (0 <? count_status "warning" results)%nat; [reflexivity|].
    destruct (0 <? count_status "error" results)%nat; reflexivity.
  - intros H. rewrite (Hcrit H). reflexivity.
  - intros (r & Hin & Hs). rewrite (Hcrit (count_status_pos "fail" r results Hin Hs)).
    reflexivity.
Qed.

End AnalyzerProperties.

Section PercentageProperties.
Context {rounding : Rounding}.

Lemma ratio_bounds (p d : nat) :
  p <= d -> 0 < d ->
  (0 <= inject_Z (Z.of_nat p) / inject_Z (Z.of_nat d) <= 1)%Q.
Proof.
  intros Hpd Hd.
  assert (Hd' : (0 < inject_Z (Z.of_nat d))%Q).
  { replace 0%Q with (inject_Z 0) by reflexivity. rewrite <- Zlt_Qlt. lia. }
  split.
  - apply Qle_shift_div_l; [exact Hd'|]. rewrite Qmult_0_l.
    replace 0%Q with (inject_Z 0) by reflexivity. rewrite <- Zle_Qle. lia.
  - apply Qle_shift_div_r; [exact Hd'|]. rewrite Qmult_1_l.
    rewrite <- Zle_Qle. lia.
Qed.

Lemma rnd_between (lo hi q : Q) :
  (rnd lo == lo)%Q -> (rnd hi == hi)%Q -> (lo <= q <= hi)%Q ->
  (lo <= rnd q <= hi)%Q.
Proof.
  intros Hlo Hhi [H1 H2]. split.
  - rewrite <- Hlo. apply rnd_monotone. exact H1.
  - rewrite <- Hhi. apply rnd_monotone. exact H2.
Qed.

Lemma percentage_bounds (p d : nat) :
  p <= d ->
  exists q, as_number (percentage p d) = Some (FFin q) /\ (0 <= q <= 100)%Q.
Proof.
  intros Hpd. unfold percentage. destruct d as [|d].
  - exists (inject_Z 0). split; [reflexivity|]. split; discriminate.
  - eexists. split; [reflexivity|].
    pose proof (ratio_bounds p (S d) Hpd ltac:(lia)) as Hr.
    apply (rnd_between 0 1 _ rnd_0 rnd_1) in Hr.
    apply (rnd_between 0 100 _ rnd_0 rnd_100). lra.
Qed.

(** C5. The compliance percentage is [passed / (criticalIssues + warnings
    + passed) * 100] when that denominator is positive and the integer 0
    when it is 0; the analyzer returns in both cases. Results with status
    'error' or 'skipped' are not in the denominator: without them the
    percentage is the same. *)
Theorem compliance_percentage_formula (results : list dict) :
  forallb is_check_result results = true ->
  let fails := count_status "fail" results in
  let warns := count_status "warning" results in
  let passes := count_status "pass" results in
  exists a, analyze results = Ok a
    /\ compliance_percentage a = percentage passes (fails + warns + passes)
    /\ (fails + warns + passes = 0 -> compliance_percentage a = PInt 0)
    /\ (0 < fails + warns + passes ->
        compliance_percentage a
        = PFloat (FFin (rnd (rnd (inject_Z (Z.of_nat passes)
                                  / inject_Z (Z.of_nat (fails + warns + passes)))
                             * 100))))
    /\ exists a', analyze (List.filter scored results) = Ok a'
         /\ compliance_percentage a' = compliance_percentage a.
Proof.
  intros Hall fails warns passes.
  eexists. split; [apply (analyze_tallied results Hall)|].
  cbn [compliance_percentage]. unfold tallied.
  cbn [Loop.critical_issues Loop.warnings Loop.passed Loop.start Nat.add].
  fold fails warns passes.
  split; [reflexivity|]. split; [|split].
  - intros ->. reflexivity.
  - unfold percentage. destruct (fails + warns + passes); [lia | reflexivity].
  - eexists. split.
    + apply analyze_tallied. apply forallb_filter. exact Hall.
    + cbn [compliance_percentage]. unfold tallied.
      cbn [Loop.critical_issues Loop.warnings Loop.passed Loop.start Nat.add].
      rewrite !count_status_filter by (apply scored_keeps; discriminate).
      reflexivity.
Qed.

(** C10. The compliance percentage is a number between 0 and 100. *)
Theorem compliance_percentage_range (results : list dict) :
  forallb is_check_result results = true ->
  exists a q, analyze results = Ok a
    /\ as_number (compliance_percentage a) = Some (FFin q)
    /\ (0 <= q <= 100)%Q.
Proof.
  intros Hall.
  destruct (percentage_bounds (count_status "pass" results)
              (count_status "fail" results + count_status "warning" results
               + count_status "pass" results) ltac:(lia)) as (q & Hq & Hrange).
  eexists. exists q. split; [apply (analyze_tallied results Hall)|].
  split; [exact Hq | exact Hrange].
Qed.

(** C9. The three item lists hold the entries of the results with status
    'fail', 'warning' and 'error', in the order of the input, so each is
    as long as its counter says; a 'skipped' result is in no list and no
    counter, and is counted in [total_checks] only. *)
Theorem analyzer_item_lists (results : list dict) :
  forallb is_check_result results = true ->
  exists a, analyze results = Ok a
    /\ critical_items a = map issue_of (with_status "fail" results)
    /\ warning_items a = map issue_of (with_status "warning" results)
    /\ error_items a = map error_of (with_status "error" results)
    /\ length (critical_items a) = critical_issues a
    /\ length (warning_items a) = warnings a
    /\ length (error_items a) = errors a
    /\ total_checks a = length results
    /\ exists a', analyze (List.filter (fun r => negb (has_status "skipped" r)) results)
                  = Ok a'
         /\ critical_items a' = critical_items a
         /\ warning_items a' = warning_items a
         /\ error_items a' = error_items a
         /\ critical_issues a' = critical_issues a
         /\ warnings a' = warnings a
         /\ passed a' = passed a
         /\ errors a' = errors a
         /\ total_checks a = total_checks a' + count_status "skipped" results.
Proof.
  intros Hall.
  assert (Hkeep : forall s, s <> "skipped" ->
            forall r, has_status s r = true -> negb (has_status "skipped" r) = true).
  { intros s Hs r Hr. rewrite (has_status_exclusive s "skipped" r Hs Hr). reflexivity. }
  eexists. split; [apply (analyze_tallied results Hall)|].
  cbn [critical_items warning_items error_items critical_issues warnings passed
       errors total_checks].
  unfold tallied, count_status.
  cbn [Loop.critical_issues Loop.warnings Loop.passed Loop.errors Loop.critical_items
       Loop.warning_items Loop.error_items Loop.start Nat.add app].
  do 3 (split; [reflexivity|]).
  do 3 (split; [apply length_map|]).
  split; [reflexivity|].
  eexists. split; [apply analyze_tallied; apply forallb_filter; exact Hall|].
  cbn [critical_items warning_items error_items critical_issues warnings passed
       errors total_checks].
  unfold tallied, count_status.
  cbn [Loop.critical_issues Loop.warnings Loop.passed Loop.errors Loop.critical_items
       Loop.warning_items Loop.error_items Loop.start Nat.add app].
  rewrite !with_status_filter by (apply Hkeep; discriminate).
  do 7 (split; [reflexivity|]).
  unfold with_status. rewrite Nat.add_comm. symmetry. apply filter_length.
Qed.

End PercentageProperties.

(** The properties of the analyzer at [sample_results], with the rounding
    that is not exact. *)

Lemma analyzer_precedence_witness :
  forallb is_check_result sample_results = true
  /\ exists a, @analyze truncating sample_results = Ok a
       /\ safety_level a
          = level_by_precedence (count_status "fail" sample_results)
              (count_status "warning" sample_results)
              (count_status "error" sample_results)
       /\ (0 < count_status "fail" sample_results ->
           summary a = "UNSAFE - Critical issues detected")
       /\ ((exists r, In r sample_results /\ has_status "fail" r = true) ->
           safety_level a = "critical").
Proof.
  assert (Hall : forallb is_check_result sample_results = true)
    by (vm_compute; reflexivity).
  split; [exact Hall|].
  exact (@analyzer_precedence truncating sample_results Hall).
Defined.

Lemma compliance_percentage_formula_witness :
  forallb is_check_result sample_results = true
  /\ let fails := count_status "fail" sample_results in
     let warns := count_status "warning" sample_results in
     let passes := count_status "pass" sample_results in
     exists a, @analyze truncating sample_results = Ok a
       /\ compliance_percentage a = @percentage truncating passes (fails + warns + passes)
       /\ (fails + warns + passes = 0 -> compliance_percentage a = PInt 0)
       /\ (0 < fails + warns + passes ->
           compliance_percentage a
           = PFloat (FFin (round_down
                             (round_down (inject_Z (Z.of_nat passes)
                                          / inject_Z (Z.of_nat (fails + warns + passes)))
                              * 100))))
       /\ exists a', @analyze truncating (List.filter scored sample_results) = Ok a'
            /\ compliance_percentage a' = compliance_percentage a.
Proof.
  assert (Hall : forallb is_check_result sample_results = true)
    by (vm_compute; reflexivity).
  split; [exact Hall|].
  exact (@compliance_percentage_formula truncating sample_results Hall).
Defined.

Lemma compliance_percentage_range_witness :
  forallb is_check_result sample_results = true
  /\ exists a q, @analyze truncating sample_results = Ok a
       /\ as_number (compliance_percentage a) = Some (FFin q)
       /\ (0 <= q <= 100)%Q.
Proof.
  assert (Hall : forallb is_check_result sample_results = true)
    by (vm_compute; reflexivity).
  split; [exact Hall|].
  exact (@compliance_percentage_range truncating sample_results Hall).
Defined.

Lemma analyzer_item_lists_witness :
  forallb is_check_result sample_results = true
  /\ exists a, @analyze truncating sample_results = Ok a
       /\ critical_items a = map issue_of (with_status "fail" sample_results)
       /\ warning_items a = map issue_of (with_status "warning" sample_results)
       /\ error_items a = map error_of (with_status "error" sample_results)
       /\ length (critical_items a) = critical_issues a
       /\ length (warning_items a) = warnings a
       /\ length (error_items a) = errors a
       /\ total_checks a = length sample_results
       /\ exists a',
            @analyze truncating
              (List.filter (fun r => negb (has_status "skipped" r)) sample_results)
            = Ok a'
            /\ critical_items a' = critical_items a
            /\ warning_items a' = warning_items a
            /\ error_items a' = error_items a
            /\ critical_issues a' = critical_issues a
            /\ warnings a' = warnings a
            /\ passed a' = passed a
            /\ errors a' = errors a
            /\ total_checks a = total_checks a' + count_status "skipped" sample_results.
Proof.
  assert (Hall : forallb is_check_result sample_results = true)
    by (vm_compute; reflexivity).
  split; [exact Hall|].
  exact (@analyzer_item_lists truncating sample_results Hall).
Defined.

(** The counts of [sample_results], and its percentage: one pass out of
    three scored results, a third rounded down and then a hundredfold
    rounded down, which is a little under [100 / 3]. *)
Example sample_results_verdict :
  exists a, @analyze truncating sample_results = Ok a
    /\ safety_level a = "critical"
    /\ (critical_issues a, warnings a, passed a, errors a, total_checks a)
       = (1, 1, 1, 1, 5)
    /\ compliance_percentage a
       = PFloat (FFin (round_down (round_down (1 / 3) * 100)))
    /\ (round_down (round_down (1 / 3) * 100) < 100 / 3)%Q.
Proof.
  eexists. split; [apply analyze_tallied; vm_compute; reflexivity|].
  repeat split.
Qed.

(** ** The executor's loop *)

Section ExecutorProperties.
Context {W : Type} {elevator_interface : ElevatorInterface W}.

Lemma dispatch_frame (item : dict) (w : W) (rs : list dict) :
  dispatch item (w, rs) = let (o, w') := checked item w in (o, (w', rs)).
Proof.
  unfold checked, dispatch, sbind, eval, sret, hardware.
  destruct (getitem item "type") as [ty|e]; [|reflexivity].
  destruct (py_eq_str ty "sensor").
  { destruct (getitem item "sensor_id") as [sid|e]; [|reflexivity].
    destruct (get_sensor_reading sid w) as [[v|e] w1]; [|reflexivity].
    destruct (getitem item "thresholds") as [th|e]; [|reflexivity].
    destruct (_evaluate_sensor_reading v th); reflexivity. }
  destruct (py_eq_str ty "visual"); [reflexivity|].
  destruct (py_eq_str ty "mechanical"); [|reflexivity].
  destruct (getitem item "component_id") as [cid|e]; [|reflexivity].
  destruct (test_mechanical_component cid w) as [[v|e] w1]; reflexivity.
Qed.

Lemma item_ok_keys (item : dict) :
  item_ok item = true ->
  has_key "id" item = true /\ has_key "name" item = true /\ has_key "type" item = true.
Proof.
  unfold item_ok. rewrite !andb_true_iff. tauto.
Qed.

Lemma inspect_appends (item : dict) (w : W) (rs : list dict) :
  item_ok item = true ->
  inspect item (w, rs)
  = (Ok tt, ((inspected item w).2, rs ++ [(inspected item w).1])).
Proof.
  intros Hok. destruct (item_ok_keys item Hok) as (Hid & Hname & Hty).
  cbv [inspect try_except try_body except_clause sbind eval sret now append].
  rewrite (getitem_present item "id" PNone Hid).
  rewrite (getitem_present item "name" PNone Hname).
  rewrite (getitem_present item "type" PNone Hty).
  rewrite dispatch_frame. unfold inspected.
  destruct (checked item w) as [[[value status]|e] w1];
    destruct (now_isoformat w1) as [timestamp w2]; reflexivity.
Qed.

Lemma for_each_inspect (items : list dict) (w : W) (rs : list dict) :
  forallb item_ok items = true ->
  for_each items inspect (w, rs)
  = (Ok tt, ((inspected_all items w).2, rs ++ (inspected_all items w).1)).
Proof.
  revert w rs. induction items as [|item rest IH]; intros w rs Hall.
  - simpl. rewrite app_nil_r. reflexivity.
  - simpl in Hall. apply andb_true_iff in Hall as [Hitem Hrest].
    cbn [for_each inspected_all]. unfold sbind at 1.
    rewrite (inspect_appends item w rs Hitem).
    destruct (inspected item w) as [r w1]. cbn [fst snd].
    rewrite (IH w1 (rs ++ [r]) Hrest).
    destruct (inspected_all rest w1) as [rs' w2]. cbn [fst snd].
    rewrite <- app_assoc. reflexivity.
Qed.

(** A run over items of the data model never raises: it returns the
    results of the turns of the loop, in order. *)
Lemma run_inspection_inspected (items : list dict) (w : W) :
  forallb item_ok items = true ->
  run_inspection items w
  = (Ok (inspected_all items w).1, (inspected_all items w).2).
Proof.
  intros Hall. unfold run_inspection.
  rewrite (for_each_inspect items w [] Hall). reflexivity.
Qed.


Lemma inspected_all_length (items : list dict) (w : W) :
  length (inspected_all items w).1 = length items.
Proof.
  revert w. induction items as [|item rest IH]; intros w; [reflexivity|].
  cbn [inspected_all]. destruct (inspected item w) as [r w1].
  specialize (IH w1). destruct (inspected_all rest w1) as [rs w2].
  simpl in *. rewrite IH. reflexivity.
Qed.

Lemma lookup_result_dict (item : dict) (value : pyval) (status ts : string) :
  let r := result_dict item value status ts in
  r !! "item_id" = Some (get item "id" PNone)
  /\ r !! "name" = Some (get item "name" PNone)
  /\ r !! "type" = Some (get item "type" PNone)
  /\ r !! "value" = Some value
  /\ r !! "status" = Some (PStr status)
  /\ r !! "category" = Some (get item "category" (PStr "general"))
  /\ r !! "criticality" = Some (get item "criticality" (PStr "normal"))
  /\ r !! "error" = None.
Proof.
  unfold result_dict. cbn [list_to_map foldr fst snd]. repeat split; simplify_map_eq; reflexivity.
Qed.


Lemma lookup_error_dict (item : dict) (e : exn) (ts : string) :
  let r := error_dict item e ts in
  r !! "item_id" = Some (get item "id" PNone)
  /\ r !! "name" = Some (get item "name" PNone)
  /\ r !! "type" = Some (get item "type" PNone)
  /\ r !! "value" = Some PNone
  /\ r !! "status" = Some (PStr "error")
  /\ r !! "category" = Some (get item "category" (PStr "general"))
  /\ r !! "criticality" = Some (get item "criticality" (PStr "normal"))
  /\ r !! "error" = Some (PStr (str_exn e)).
Proof.
  unfold error_dict. cbn [list_to_map foldr fst snd].
  repeat split; simplify_map_eq; reflexivity.
Qed.

Lemma lookup_present (d : dict) (k : string) (v : pyval) :
  has_key k d = true -> d !! k = Some (get d k v).
Proof.
  unfold has_key, get. destruct (d !! k); [reflexivity | discriminate].
Qed.

Lemma inspected_copied (item : dict) (w : W) :
  item_ok item = true -> copied_from item (inspected item w).1.
Proof.
  intros Hok. destruct (item_ok_keys item Hok) as (Hid & Hname & Hty).
  unfold copied_from.
  rewrite (lookup_present item "id" PNone Hid).
  rewrite (lookup_present item "name" PNone Hname).
  rewrite (lookup_present item "type" PNone Hty).
  unfold inspected. destruct (checked item w) as [[[value status]|e] w1];
    destruct (now_isoformat w1) as [ts w2]; cbn [fst].
  - destruct (lookup_result_dict item value status ts) as (? & ? & ? & ? & ? & ? & ? & ?).
    auto.
  - destruct (lookup_error_dict item e ts) as (? & ? & ? & ? & ? & ? & ? & ?).
    auto.
Qed.

Lemma inspected_all_copied (items : list dict) (w : W) :
  forallb item_ok items = true ->
  Forall2 copied_from items (inspected_all items w).1.
Proof.
  revert w. induction items as [|item rest IH]; intros w Hall.
  - constructor.
  - simpl in Hall. apply andb_true_iff in Hall as [Hitem Hrest].
    cbn [inspected_all]. pose proof (inspected_copied item w Hitem) as Hc.
    destruct (inspected item w) as [r w1]. specialize (IH w1 Hrest).
    destruct (inspected_all rest w1) as [rs w2]. constructor; assumption.
Qed.

(** The result at a position of the output is the one the loop appends
    for the item at that position, in the world the earlier turns left. *)
Lemma inspected_all_lookup (items : list dict) (w : W) (i : nat) (item : dict) :
  items !! i = Some item ->
  exists wi, (inspected_all items w).1 !! i = Some (inspected item wi).1.
Proof.
  revert w i. induction items as [|x rest IH]; intros w i Hi; [discriminate|].
  cbn [inspected_all]. destruct i as [|i].
  - injection Hi as ->. exists w. destruct (inspected item w) as [r w1].
    destruct (inspected_all rest w1). reflexivity.
  - destruct (inspected x w) as [r w1]. destruct (IH w1 i Hi) as [wi Hwi].
    exists wi. destruct (inspected_all rest w1). exact Hwi.
Qed.

Lemma checked_unknown_kind (item : dict) (w : W) :
  unknown_kind item = true -> checked item w = (Ok (PNone, "skipped"), w).
Proof.
  unfold unknown_kind, checked, dispatch, sbind, eval, sret, getitem.
  destruct (item !! "type") as [ty|]; [|discriminate].
  rewrite !andb_true_iff, !negb_true_iff. intros [[-> ->] ->]. reflexivity.
Qed.


(** A sensor item without [thresholds]: the reading succeeds, and the
    lookup of the absent key raises. *)
Lemma checked_missing_thresholds (item : dict) (w : W) (sid v : pyval) (w' : W) :
  item !! "type" = Some (PStr "sensor") ->
  item !! "sensor_id" = Some sid ->
  get_sensor_reading sid w = (Ok v, w') ->
  item !! "thresholds" = None ->
  checked item w = (Raise (KeyError "thresholds"), w').
Proof.
  intros Hty Hsid Hcall Hth.
  unfold checked, dispatch, sbind, eval, sret, hardware, getitem.
  rewrite Hty. cbn [py_eq_str String.eqb Ascii.eqb Bool.eqb andb].
  rewrite Hsid, Hcall, Hth. reflexivity.
Qed.

(** C2. A run over a checklist returns one result per item: the list of
    results is as long as the checklist, and the result at each position
    is the one of the item at that position. *)
Theorem run_inspection_one_result_per_item (items : list dict) (w : W) :
  forallb item_ok items = true ->
  exists results w',
    run_inspection items w = (Ok results, w')
    /\ length results = length items
    /\ Forall2 copied_from items results.
Proof.
  intros Hall. exists (inspected_all items w).1, (inspected_all items w).2.
  split; [apply (run_inspection_inspected items w Hall)|]. split.
  - apply inspected_all_length.
  - apply (inspected_all_copied items w Hall).
Qed.


(** C8. An item whose type is none of sensor, visual and mechanical gets
    a result with status 'skipped' and the value [None], and no [error]
    key: it is not treated as an error. *)
Theorem unknown_kind_is_skipped (items : list dict) (w : W) (i : nat) (item : dict) :
  forallb item_ok items = true ->
  items !! i = Some item ->
  unknown_kind item = true ->
  exists results w' r,
    run_inspection items w = (Ok results, w')
    /\ results !! i = Some r
    /\ r !! "status" = Some (PStr "skipped")
    /\ r !! "value" = Some PNone
    /\ r !! "error" = None.
Proof.
  intros Hall Hi Hkind.
  destruct (inspected_all_lookup items w i item Hi) as [wi Hwi].
  exists (inspected_all items w).1, (inspected_all items w).2, (inspected item wi).1.
  split; [apply (run_inspection_inspected items w Hall)|].
  split; [exact Hwi|].
  unfold inspected. rewrite (checked_unknown_kind item wi Hkind).
  destruct (now_isoformat wi) as [ts w2]. cbn [fst].
  destruct (lookup_result_dict item PNone "skipped" ts)
    as (_ & _ & _ & Hvalue & Hstatus & _ & _ & Herror).
  auto.
Qed.

End ExecutorProperties.

Lemma run_inspection_one_result_per_item_witness :
  let items := [test_sensor; test_visual; test_mechanical] in
  let w := Mock.returning (float_of 30 1) (PBool true) in
  forallb item_ok items = true
  /\ exists results w',
       run_inspection items w = (Ok results, w')
       /\ length results = length items
       /\ Forall2 copied_from items results.
Proof.
  intros items w.
  assert (Hall : forallb item_ok items = true) by (vm_compute; reflexivity).
  split; [exact Hall|].
  exact (run_inspection_one_result_per_item items w Hall).
Defined.


Lemma unknown_kind_is_skipped_witness :
  let items := [test_visual; acoustic_item] in
  let w := Mock.returning (float_of 30 1) (PBool true) in
  forallb item_ok items = true
  /\ items !! 1%nat = Some acoustic_item
  /\ unknown_kind acoustic_item = true
  /\ exists results w' r,
       run_inspection items w = (Ok results, w')
       /\ results !! 1%nat = Some r
       /\ r !! "status" = Some (PStr "skipped")
       /\ r !! "value" = Some PNone
       /\ r !! "error" = None.
Proof.
  intros items w.
  assert (Hall : forallb item_ok items = true) by (vm_compute; reflexivity).
  assert (Hkind : unknown_kind acoustic_item = true) by (vm_compute; reflexivity).
  split; [exact Hall|]. split; [reflexivity|]. split; [exact Hkind|].
  exact (unknown_kind_is_skipped items w 1 acoustic_item Hall eq_refl Hkind).
Defined.

(** C6. The sensor item [door_operation] of the default configuration has
    no [thresholds]; its sensor is read and returns [True], and the result
    has status 'error', the error of the failed lookup of 'thresholds',
    and no value. *)
Theorem sensor_without_thresholds_is_error :
  let w := Mock.returning (PBool true) (PBool true) in
  door_operation !! "thresholds" = None
  /\ get_sensor_reading (PStr "door_sensor") w
     = (Ok (PBool true), Mock.record_call "get_sensor_reading" (PStr "door_sensor") w)
  /\ exists r w',
       run_inspection [door_operation] w = (Ok [r], w')
       /\ r !! "status" = Some (PStr "error")
       /\ r !! "error" = Some (PStr "'thresholds'")
       /\ r !! "value" = Some PNone.
Proof.
  intros w. split; [vm_compute; reflexivity|]. split; [reflexivity|].
  assert (Hok : forallb item_ok [door_operation] = true) by (vm_compute; reflexivity).
  assert (Hraise : checked door_operation w
                   = (Raise (KeyError "thresholds"),
                      Mock.record_call "get_sensor_reading" (PStr "door_sensor") w)).
  { apply (checked_missing_thresholds door_operation w (PStr "door_sensor") (PBool true));
      vm_compute; reflexivity. }
  exists (inspected door_operation w).1, (inspected door_operation w).2.
  split.
  - rewrite (run_inspection_inspected _ w Hok). cbn [inspected_all].
    destruct (inspected door_operation w). reflexivity.
  - unfold inspected. rewrite Hraise.
    destruct (now_isoformat _) as [ts w2]. cbn [fst].
    destruct (lookup_error_dict door_operation (KeyError "thresholds") ts)
      as (_ & _ & _ & Hvalue & Hstatus & _ & _ & Herror).
    auto.
Qed.

(** ** Runs of the executor followed by the analyzer *)

Section RunThenAnalyze.
Context {W : Type} {elevator_interface : ElevatorInterface W} {rounding : Rounding}.

Lemma inspected_is_check_result (item : dict) (w : W) :
  is_check_result (inspected item w).1 = true.
Proof.
  unfold inspected. destruct (checked item w) as [[[value status]|e] w1];
    destruct (now_isoformat w1) as [ts w2]; cbn [fst]; unfold is_check_result, has_key.
  - destruct (lookup_result_dict item value status ts)
      as (_ & -> & _ & -> & -> & _). reflexivity.
  - destruct (lookup_error_dict item e ts) as (_ & -> & _ & -> & -> & _).
    reflexivity.
Qed.

Lemma inspected_all_check_results (items : list dict) (w : W) :
  forallb is_check_result (inspected_all items w).1 = true.
Proof.
  revert w. induction items as [|item rest IH]; intros w; [reflexivity|].
  cbn [inspected_all]. pose proof (inspected_is_check_result item w) as Hr.
  destruct (inspected item w) as [r w1]. specialize (IH w1).
  destruct (inspected_all rest w1) as [rs w2]. cbn [fst] in *.
  cbn [forallb]. rewrite Hr, IH. reflexivity.
Qed.

(** What the executor returns is what the analyzer expects, so a run
    over items of the data model always ends in a verdict. *)
Lemma run_then_analyze_returns (items : list dict) (w : W) :
  forallb item_ok items = true ->
  exists results w' a,
    run_inspection items w = (Ok results, w')
    /\ forallb is_check_result results = true
    /\ analyze results = Ok a.
Proof.
  intros Hall.
  pose proof (inspected_all_check_results items w) as Hwf.
  exists (inspected_all items w).1, (inspected_all items w).2.
  eexists. split; [apply (run_inspection_inspected items w Hall)|].
  split; [exact Hwf|]. apply (analyze_tallied _ Hwf).
Qed.

End RunThenAnalyze.

(** A dictionary without a [name] is not an item of the data model: the
    message of [logger.info] needs the name before the [try] is entered,
    and the run ends there. *)
Example item_without_name :
  let nameless : dict := list_to_map [("id", PStr "x"); ("type", PStr "visual")] in
  (run_inspection [test_visual; nameless; test_mechanical]
     (Mock.returning (float_of 30 1) (PBool true))).1
  = Raise (KeyError "name").
Proof. vm_compute. reflexivity. Qed.


(** The sensor read fails, the visual check passes: one error, one pass,
    and the verdict is 'incomplete'. *)
Example failed_sensor_then_pass :
  let run := run_inspection [test_sensor; test_visual]
               (Mock.failing_sensor "Sensor error" (PBool true)) in
  statuses run.1 = [Some (PStr "error"); Some (PStr "pass")]
  /\ verdict (@analyzed exact_rounding run.1)
     = Some ("incomplete", (0, 0, 1, 1), Some 100%Q).
Proof. split; vm_compute; reflexivity. Qed.

(** One sensor of two fails: the other sensor item and the brake test are
    checked all the same and pass. *)
Example one_bad_sensor_of_two :
  let run := run_inspection [weight_sensor; test_sensor; test_mechanical]
               (Mock.one_bad_sensor "test_sensor_1" "Sensor error" (PInt 900)
                  (PBool true)) in
  statuses run.1 = [Some (PStr "pass"); Some (PStr "error"); Some (PStr "pass")]
  /\ verdict (@analyzed exact_rounding run.1)
     = Some ("incomplete", (0, 0, 2, 1), Some 100%Q).
Proof. split; vm_compute; reflexivity. Qed.

(** A weight of 1100 against the critical bound 1050: the check fails,
    the verdict is 'critical' and the percentage is zero. *)
Example overweight_is_critical :
  let run := run_inspection [weight_sensor]
               (Mock.returning (PInt 1100) (PBool true)) in
  statuses run.1 = [Some (PStr "fail")]
  /\ verdict (@analyzed exact_rounding run.1)
     = Some ("critical", (1, 0, 0, 0), Some 0%Q).
Proof. split; vm_compute; reflexivity. Qed.

(** A reading of 55 against the warning bound 50 and the critical bound
    70: a warning, and the percentage is zero. *)
Example warm_sensor_is_warning :
  let run := run_inspection [test_sensor]
               (Mock.returning (PInt 55) (PBool true)) in
  statuses run.1 = [Some (PStr "warning")]
  /\ verdict (@analyzed exact_rounding run.1)
     = Some ("warning", (0, 1, 0, 0), Some 0%Q).
Proof. split; vm_compute; reflexivity. Qed.

(** A visual check and a brake test that succeeds: both pass, the verdict
    is 'safe' and the percentage is a hundred, also when rounding is not
    exact. *)
Example visual_and_mechanical_pass :
  let run := run_inspection [test_visual; test_mechanical]
               (Mock.returning (float_of 30 1) (PBool true)) in
  statuses run.1 = [Some (PStr "pass"); Some (PStr "pass")]
  /\ verdict (@analyzed truncating run.1)
     = Some ("safe", (0, 0, 2, 0), Some 100%Q).
Proof. split; vm_compute; reflexivity. Qed.

(** With working sensors throughout, the door sensor item of the default
    configuration alone keeps the verdict at 'incomplete'. *)
Example default_door_item_is_incomplete :
  let run := run_inspection [door_operation; test_visual]
               (Mock.returning (PBool true) (PBool true)) in
  statuses run.1 = [Some (PStr "error"); Some (PStr "pass")]
  /\ verdict (@analyzed exact_rounding run.1)
     = Some ("incomplete", (0, 0, 1, 1), Some 100%Q).
Proof. split; vm_compute; reflexivity. Qed.

(** The mock elevator returns [None] for a sensor it does not know, as the
    real interface does when it is disconnected: the comparison with the
    bound raises, and the item is an error. *)
Example none_reading_is_error :
  let run := run_inspection [weight_sensor] (Mock.returning PNone (PBool true)) in
  map (fun r => (r !! "status", r !! "error"))
      (match run.1 with Ok results => results | Raise _ => [] end)
  = [(Some (PStr "error"),
      Some (PStr "'>' not supported between instances of 'NoneType' and 'int'"))].
Proof. vm_compute. reflexivity. Qed.

(** * Further properties *)

Section ExecutorMore.
Context {W : Type} {elevator_interface : ElevatorInterface W}.

(** One turn of the loop does not look at the results gathered so far:
    it behaves as on an empty list and appends to what was there. *)
Lemma inspect_frame (item : dict) (w : W) (rs : list dict) :
  inspect item (w, rs)
  = let '(o, (w', rs')) := inspect item (w, []) in (o, (w', rs ++ rs')).
Proof.
  cbv [inspect try_except try_body except_clause sbind eval sret now append].
  rewrite !dispatch_frame.
  destruct (getitem item "name") as [name|e0]; [|rewrite app_nil_r; reflexivity].
  destruct (checked item w) as [[[value status]|e] w1];
    destruct (getitem item "id") as [item_id|e1]; try (rewrite app_nil_r; reflexivity);
    destruct (getitem item "type") as [ty|e2]; try (rewrite app_nil_r; reflexivity);
    destruct (now_isoformat w1) as [ts w2]; reflexivity.
Qed.

Lemma for_each_frame (items : list dict) (w : W) (rs : list dict) :
  for_each items inspect (w, rs)
  = let '(o, (w', rs')) := for_each items inspect (w, []) in (o, (w', rs ++ rs')).
Proof.
  revert w rs. induction items as [|item rest IH]; intros w rs.
  - simpl. rewrite app_nil_r. reflexivity.
  - cbn [for_each]. unfold sbind.
    rewrite (inspect_frame item w rs).
    destruct (inspect item (w, [])) as [[[]|e] [w1 rs1]].
    + rewrite (IH w1 (rs ++ rs1)), (IH w1 rs1).
      destruct (for_each rest inspect (w1, [])) as [o [w2 rs2]].
      rewrite app_assoc. reflexivity.
    + reflexivity.
Qed.

Lemma for_each_app {S A} (xs ys : list A) (body : A -> stateful S unit) (s : S) :
  for_each (xs ++ ys) body s
  = match for_each xs body s with
    | (Ok _, s') => for_each ys body s'
    | (Raise e, s') => (Raise e, s')
    end.
Proof.
  revert s. induction xs as [|x xs IH]; intros s; [reflexivity|].
  cbn [app for_each]. unfold sbind.
  destruct (body x s) as [[[]|e] s1]; [apply IH | reflexivity].
Qed.

(** X1. A run over two checklists in a row is the run over the first
    followed, in the world it leaves, by the run over the second; an
    exception that ends either run ends the whole. *)
Theorem run_inspection_app (xs ys : list dict) (w : W) :
  run_inspection (xs ++ ys) w
  = match run_inspection xs w with
    | (Ok rs1, w1) =>
        match run_inspection ys w1 with
        | (Ok rs2, w2) => (Ok (rs1 ++ rs2), w2)
        | (Raise e, w2) => (Raise e, w2)
        end
    | (Raise e, w1) => (Raise e, w1)
    end.
Proof.
  unfold run_inspection. rewrite for_each_app.
  destruct (for_each xs inspect (w, [])) as [[[]|e] [w1 rs1]]; [|reflexivity].
  rewrite (for_each_frame ys w1 rs1).
  destruct (for_each ys inspect (w1, [])) as [[[]|e] [w2 rs2]]; reflexivity.
Qed.

Lemma item_not_ok (item : dict) :
  item_ok item = false ->
  item !! "name" = None \/ item !! "id" = None \/ item !! "type" = None.
Proof.
  unfold item_ok, has_key.
  destruct (item !! "id"), (item !! "name"), (item !! "type"); simpl; auto; discriminate.
Qed.

(** An item that lacks its name, id or type ends the run: the lookup
    raises before the [try], or in it and again in the [except] clause. *)
Lemma inspect_raises (item : dict) (w : W) (rs : list dict) :
  item_ok item = false ->
  exists k s', inspect item (w, rs) = (Raise (KeyError k), s') /\ In k identity_keys.
Proof.
  intros Hbad. apply item_not_ok in Hbad.
  cbv [inspect try_except try_body except_clause sbind eval sret now append].
  rewrite dispatch_frame. unfold getitem at 1.
  destruct (item !! "name") as [name|] eqn:Hname;
    [|eexists _, _; split; [reflexivity | simpl; auto]].
  assert (Hget : getitem item "name" = Ok name) by (unfold getitem; rewrite Hname; reflexivity).
  rewrite !Hget.
  destruct (item !! "id") as [item_id|] eqn:Hid.
  - assert (Hty : item !! "type" = None) by (destruct Hbad as [?|[?|?]]; congruence).
    unfold checked, dispatch, sbind, eval, getitem. rewrite Hty, Hid.
    eexists _, _; split; [reflexivity | simpl; auto].
  - unfold getitem. rewrite Hid.
    destruct (checked item w) as [[[value status]|e] w1];
      eexists _, _; (split; [reflexivity | simpl; auto]).
Qed.

Lemma for_each_raises (items : list dict) (w : W) (rs : list dict) :
  forallb item_ok items = false ->
  exists k s', for_each items inspect (w, rs) = (Raise (KeyError k), s')
               /\ In k identity_keys.
Proof.
  revert w rs. induction items as [|item rest IH]; intros w rs Hbad; [discriminate|].
  cbn [forallb] in Hbad. cbn [for_each]. unfold sbind.
  destruct (item_ok item) eqn:Hitem.
  - rewrite (inspect_appends item w rs Hitem). apply IH. exact Hbad.
  - destruct (inspect_raises item w rs Hitem) as (k & s' & -> & Hk). eauto.
Qed.

(** X2. A run returns a list of results exactly when every item has its
    id, name and type, and then one result per item; otherwise it raises
    the [KeyError] of one of these three keys and returns no result at
    all, whatever the items before had given. *)
Theorem run_inspection_returns_iff (items : list dict) (w : W) :
  match run_inspection items w with
  | (Ok results, _) =>
      forallb item_ok items = true /\ length results = length items
  | (Raise e, _) =>
      forallb item_ok items = false
      /\ exists k, e = KeyError k /\ In k identity_keys
  end.
Proof.
  destruct (forallb item_ok items) eqn:Hall.
  - rewrite (run_inspection_inspected items w Hall).
    split; [reflexivity | apply inspected_all_length].
  - unfold run_inspection.
    destruct (for_each_raises items w [] Hall) as (k & [w' rs'] & -> & Hk).
    split; [reflexivity | eauto].
Qed.

End ExecutorMore.

(** ** More on threshold evaluation *)

Lemma below_none (d : dict) (k : string) :
  below PNone (PDict d) k
  = match d !! k with
    | Some bound => Raise (not_supported "<" PNone bound)
    | None => Ok false
    end.
Proof.
  unfold below. rewrite contains_dict. unfold has_key.
  destruct (d !! k) as [bound|] eqn:E; [|reflexivity].
  cbn [obind subscript]. unfold getitem. rewrite E. cbn [obind].
  unfold py_lt. cbn [as_number]. reflexivity.
Qed.

Lemma above_none (d : dict) (k : string) :
  above PNone (PDict d) k
  = match d !! k with
    | Some bound => Raise (not_supported ">" PNone bound)
    | None => Ok false
    end.
Proof.
  unfold above. rewrite contains_dict. unfold has_key.
  destruct (d !! k) as [bound|] eqn:E; [|reflexivity].
  cbn [obind subscript]. unfold getitem. rewrite E. cbn [obind].
  unfold py_gt. cbn [as_number]. reflexivity.
Qed.

Lemma none_reading_cases (d : dict) :
  match _evaluate_sensor_reading PNone (PDict d) with
  | Ok status => has_bound d = false /\ status = "pass"
  | Raise e => has_bound d = true /\ exists msg, e = TypeError msg
  end.
Proof.
  unfold _evaluate_sensor_reading, has_bound, bound_keys.
  rewrite !below_none, !above_none. cbn [existsb]. unfold has_key, not_supported.
  destruct (d !! "min_critical"); [cbn; eauto|].
  destruct (d !! "max_critical"); [cbn; eauto|].
  destruct (d !! "min_warning"); [cbn; eauto|].
  destruct (d !! "max_warning"); cbn; eauto.
Qed.

(** X3. A reading that is not a number (NaN) passes every set of numeric
    bounds. *)
Theorem nan_reading_passes (d : dict) :
  numeric_bounds d = true ->
  _evaluate_sensor_reading (PFloat FNaN) (PDict d) = Ok "pass".
Proof.
  intros Hd. rewrite (evaluate_refines (PFloat FNaN) FNaN d eq_refl Hd).
  unfold threshold_status, thresholds_of, violates_min, violates_max.
  cbn [minCritical maxCritical minWarning maxWarning].
  destruct (bound_of d "min_critical") as [[]|], (bound_of d "max_critical") as [[]|],
    (bound_of d "min_warning") as [[]|], (bound_of d "max_warning") as [[]|];
    reflexivity.
Qed.

Lemma nan_reading_passes_witness :
  let d : dict := list_to_map [("min_critical", PInt 8); ("max_warning", float_of 5 2)] in
  numeric_bounds d = true
  /\ _evaluate_sensor_reading (PFloat FNaN) (PDict d) = Ok "pass".
Proof.
  intros d. assert (Hd : numeric_bounds d = true) by (vm_compute; reflexivity).
  split; [exact Hd | exact (nan_reading_passes d Hd)].
Defined.

Lemma finite_bounds_numeric (d : dict) :
  finite_bounds d = true -> numeric_bounds d = true.
Proof.
  unfold finite_bounds, numeric_bounds. rewrite !forallb_forall.
  intros H k Hk. specialize (H k Hk). destruct (d !! k) as [v|]; [|reflexivity].
  destruct (as_number v) as [[]|]; [reflexivity | discriminate..].
Qed.

Lemma finite_bound_cases (d : dict) (k : string) :
  finite_bounds d = true -> In k bound_keys ->
  bound_of d k = None \/ exists m, bound_of d k = Some (FFin m).
Proof.
  unfold finite_bounds, bound_of. rewrite forallb_forall. intros H Hk.
  specialize (H k Hk). destruct (d !! k) as [v|].
  - destruct (as_number v) as [[m| | |]|]; try discriminate. right. eauto.
  - left.
    (* an absent key: its bound is looked up as absent *)
    reflexivity.
Qed.

Lemma Qlt_bool_false (a b : Q) : Qlt_bool a b = false <-> (b <= a)%Q.
Proof.
  unfold Qlt_bool. rewrite negb_false_iff. apply Qle_bool_iff.
Qed.

Lemma violates_min_false (x : Q) (b : option pyfloat) :
  b = None \/ (exists m, b = Some (FFin m)) ->
  violates_min (FFin x) b = false <-> at_least x b.
Proof.
  intros [-> | [m ->]]; simpl; [tauto | apply Qlt_bool_false].
Qed.

Lemma violates_max_false (x : Q) (b : option pyfloat) :
  b = None \/ (exists m, b = Some (FFin m)) ->
  violates_max (FFin x) b = false <-> at_most x b.
Proof.
  intros [-> | [m ->]]; simpl; [tauto | apply Qlt_bool_false].
Qed.

Lemma threshold_status_pass_fail (x : Q) (d : dict) :
  finite_bounds d = true ->
  (threshold_status (FFin x) (thresholds_of d) = "pass"
   <-> at_least x (bound_of d "min_critical") /\ at_most x (bound_of d "max_critical")
       /\ at_least x (bound_of d "min_warning") /\ at_most x (bound_of d "max_warning"))
  /\ (threshold_status (FFin x) (thresholds_of d) = "fail"
      <-> ~ (at_least x (bound_of d "min_critical")
             /\ at_most x (bound_of d "max_critical"))).
Proof.
  intros Hd. unfold threshold_status, thresholds_of.
  cbn [minCritical maxCritical minWarning maxWarning].
  pose proof (violates_min_false x _
                (finite_bound_cases d "min_critical" Hd ltac:(simpl; tauto))) as H1.
  pose proof (violates_max_false x _
                (finite_bound_cases d "max_critical" Hd ltac:(simpl; tauto))) as H2.
  pose proof (violates_min_false x _
                (finite_bound_cases d "min_warning" Hd ltac:(simpl; tauto))) as H3.
  pose proof (violates_max_false x _
                (finite_bound_cases d "max_warning" Hd ltac:(simpl; tauto))) as H4.
  rewrite <- H1, <- H2, <- H3, <- H4. clear H1 H2 H3 H4.
  destruct (violates_min (FFin x) (bound_of d "min_critical")),
    (violates_max (FFin x) (bound_of d "max_critical")),
    (violates_min (FFin x) (bound_of d "min_warning")),
    (violates_max (FFin x) (bound_of d "max_warning"));
    split; split; intros; intuition (first [discriminate | reflexivity]).
Qed.

Lemma Ok_inj (s t : string) : @Ok string s = Ok t <-> s = t.
Proof. split; [intros [= ->]; reflexivity | intros ->; reflexivity]. Qed.

(** X4. The bounds are inclusive: a finite reading passes exactly when it
    is at least every minimum and at most every maximum that is set, and
    fails exactly when it is under the critical minimum or over the
    critical maximum. *)
Theorem bounds_are_inclusive (value : pyval) (x : Q) (d : dict) :
  as_number value = Some (FFin x) ->
  finite_bounds d = true ->
  (_evaluate_sensor_reading value (PDict d) = Ok "pass"
   <-> at_least x (bound_of d "min_critical") /\ at_most x (bound_of d "max_critical")
       /\ at_least x (bound_of d "min_warning") /\ at_most x (bound_of d "max_warning"))
  /\ (_evaluate_sensor_reading value (PDict d) = Ok "fail"
      <-> ~ (at_least x (bound_of d "min_critical")
             /\ at_most x (bound_of d "max_critical"))).
Proof.
  intros Hx Hd.
  rewrite (evaluate_refines value (FFin x) d Hx (finite_bounds_numeric d Hd)).
  rewrite !Ok_inj. exact (threshold_status_pass_fail x d Hd).
Qed.

Lemma bounds_are_inclusive_witness :
  let d : dict :=
    list_to_map [("min_warning", PInt 10); ("max_warning", PInt 50);
                 ("max_critical", PInt 70)] in
  as_number (PInt 50) = Some (FFin (inject_Z 50))
  /\ finite_bounds d = true
  /\ (_evaluate_sensor_reading (PInt 50) (PDict d) = Ok "pass"
      <-> at_least (inject_Z 50) (bound_of d "min_critical")
          /\ at_most (inject_Z 50) (bound_of d "max_critical")
          /\ at_least (inject_Z 50) (bound_of d "min_warning")
          /\ at_most (inject_Z 50) (bound_of d "max_warning"))
  /\ (_evaluate_sensor_reading (PInt 50) (PDict d) = Ok "fail"
      <-> ~ (at_least (inject_Z 50) (bound_of d "min_critical")
             /\ at_most (inject_Z 50) (bound_of d "max_critical"))).
Proof.
  intros d.
  assert (Hx : as_number (PInt 50) = Some (FFin (inject_Z 50))) by reflexivity.
  assert (Hd : finite_bounds d = true) by (vm_compute; reflexivity).
  split; [exact Hx|]. split; [exact Hd|].
  exact (bounds_are_inclusive (PInt 50) (inject_Z 50) d Hx Hd).
Defined.

(** ** More on the analyzer *)

Lemma tally_all_app (t : Loop.tally) (xs ys : list dict) :
  tally_all t (xs ++ ys)
  = obind (tally_all t xs) (fun t' => tally_all t' ys).
Proof.
  revert t. induction xs as [|x xs IH]; intros t; [reflexivity|].
  cbn [app tally_all]. destruct (tally_result t x) as [t1|e]; [apply IH | reflexivity].
Qed.

(** One turn of the loop returns when the result is analyzable and raises
    the [KeyError] of the key it misses when not. *)
Lemma tally_result_outcome (t : Loop.tally) (r : dict) :
  match tally_result t r with
  | Ok _ => analyzable r = true
  | Raise e => analyzable r = false /\ exists k, e = KeyError k /\ In k result_keys
  end.
Proof.
  unfold tally_result, analyzable, issue_entry, error_entry, getitem, has_key, result_keys.
  destruct (r !! "status") as [v|]; [|simpl; eauto 6].
  cbn [obind].
  destruct (status_cases v) as [-> | -> | -> | -> | Hf Hw Hp He].
  1-4: cbn [py_eq_str String.eqb Ascii.eqb Bool.eqb andb orb obind];
       destruct (r !! "name"); cbn [obind andb]; [|simpl; eauto 8];
       try (destruct (r !! "value"); cbn [obind]; [|simpl; eauto 8]);
       reflexivity.
  rewrite Hf, Hw, Hp, He. reflexivity.
Qed.

Lemma tally_all_outcome (rs : list dict) (t : Loop.tally) :
  match tally_all t rs with
  | Ok _ => forallb analyzable rs = true
  | Raise e => forallb analyzable rs = false
               /\ exists k, e = KeyError k /\ In k result_keys
  end.
Proof.
  revert t. induction rs as [|r rs IH]; intros t; [reflexivity|].
  cbn [tally_all forallb]. pose proof (tally_result_outcome t r) as Hr.
  destruct (tally_result t r) as [t1|e]; cbn [obind].
  - rewrite Hr. apply IH.
  - destruct Hr as [-> Hk]. split; [reflexivity | exact Hk].
Qed.

Section AnalyzerMore.
Context {rounding : Rounding}.

(** X5. [analyze] returns a verdict exactly when every result has a
    status, every 'fail' and 'warning' result a name and a value, and
    every 'error' result a name; results with any other status need
    nothing else. Otherwise it raises the [KeyError] of the missing key. *)
Theorem analyze_returns_iff (results : list dict) :
  match analyze results with
  | Ok a => forallb analyzable results = true /\ total_checks a = length results
  | Raise e => forallb analyzable results = false
               /\ exists k, e = KeyError k /\ In k result_keys
  end.
Proof.
  unfold analyze. pose proof (tally_all_outcome results Loop.start) as Hall.
  destruct (tally_all Loop.start results) as [t|e]; cbn [obind]; [|exact Hall].
  rewrite compliance_percentage_of. destruct (classify t) as [[sm ac] lv].
  cbn [obind total_checks]. split; [exact Hall | reflexivity].
Qed.

Lemma untallied_result (t : Loop.tally) (r : dict) :
  untallied r = true -> tally_result t r = Ok t.
Proof.
  unfold untallied, tally_result, getitem.
  destruct (r !! "status") as [v|]; [|discriminate]. cbn [obind].
  rewrite !andb_true_iff, !negb_true_iff. intros [[[-> ->] ->] ->]. reflexivity.
Qed.

Lemma untallied_all (rs : list dict) (t : Loop.tally) :
  forallb untallied rs = true -> tally_all t rs = Ok t.
Proof.
  induction rs as [|r rs IH]; [reflexivity|].
  cbn [forallb tally_all]. intros H. apply andb_true_iff in H as [Hr Hrs].
  rewrite (untallied_result t r Hr). cbn [obind]. apply IH, Hrs.
Qed.

(** X6. When no result has one of the statuses 'fail', 'warning', 'pass'
    and 'error' (all are skipped, say, or there is no result at all), the
    verdict is 'safe' with the summary 'SAFE - All checks passed', all
    counters at zero and the percentage the integer 0. *)
Theorem nothing_tallied_is_safe (results : list dict) :
  forallb untallied results = true ->
  analyze results = Ok
    {| summary := "SAFE - All checks passed";
       safety_level := "safe";
       action_required := "Regular maintenance schedule can be followed.";
       critical_issues := 0; warnings := 0; passed := 0; errors := 0;
       compliance_percentage := PInt 0;
       critical_items := []; warning_items := []; error_items := [];
       total_checks := length results |}.
Proof.
  intros Hall. unfold analyze. rewrite (untallied_all results Loop.start Hall).
  reflexivity.
Qed.

End AnalyzerMore.

Lemma nothing_tallied_is_safe_witness :
  let results := [result_dict acoustic_item PNone "skipped" "2024-01-01T00:00:00";
                  result_dict acoustic_item PNone "skipped" "2024-01-01T00:00:01"] in
  forallb untallied results = true
  /\ @analyze truncating results = Ok
       {| summary := "SAFE - All checks passed";
          safety_level := "safe";
          action_required := "Regular maintenance schedule can be followed.";
          critical_issues := 0; warnings := 0; passed := 0; errors := 0;
          compliance_percentage := PInt 0;
          critical_items := []; warning_items := []; error_items := [];
          total_checks := length results |}.
Proof.
  intros results.
  assert (Hall : forallb untallied results = true) by (vm_compute; reflexivity).
  split; [exact Hall | exact (@nothing_tallied_is_safe truncating results Hall)].
Defined.

Lemma with_status_Permutation (s : string) (rs rs' : list dict) :
  rs ≡ₚ rs' -> with_status s rs ≡ₚ with_status s rs'.
Proof.
  unfold with_status. induction 1 as [|r l l' _ IH|r r' l|l l' l'' _ IH1 _ IH2]; simpl.
  - constructor.
  - destruct (has_status s r); [constructor|]; exact IH.
  - destruct (has_status s r), (has_status s r'); try reflexivity. constructor.
  - etransitivity; eassumption.
Qed.

Lemma count_status_Permutation (s : string) (rs rs' : list dict) :
  rs ≡ₚ rs' -> count_status s rs = count_status s rs'.
Proof.
  intros H. unfold count_status. apply Permutation_length, with_status_Permutation, H.
Qed.

Lemma forallb_Permutation (P : dict -> bool) (rs rs' : list dict) :
  rs ≡ₚ rs' -> forallb P rs = true -> forallb P rs' = true.
Proof.
  intros Hp. rewrite !forallb_forall. intros H r Hr. apply H.
  apply (Permutation_in r (Permutation_sym Hp)). exact Hr.
Qed.

Section AnalyzerOrder.
Context {rounding : Rounding}.

Lemma rnd_proper (a b : Q) : (a == b)%Q -> (rnd a == rnd b)%Q.
Proof.
  intros Hab. apply Qle_antisym; apply rnd_monotone; rewrite Hab; apply Qle_refl.
Qed.

(** X7. The verdict does not depend on the order of the results: a
    permutation of them gives the same summary, level, action, counters
    and percentage, and the same entries in the three lists, in as far
    as their order goes. *)
Theorem analyze_permutation (results results' : list dict) :
  forallb is_check_result results = true ->
  results ≡ₚ results' ->
  exists a a',
    analyze results = Ok a /\ analyze results' = Ok a'
    /\ summary a' = summary a
    /\ safety_level a' = safety_level a
    /\ action_required a' = action_required a
    /\ (critical_issues a', warnings a', passed a', errors a')
       = (critical_issues a, warnings a, passed a, errors a)
    /\ compliance_percentage a' = compliance_percentage a
    /\ total_checks a' = total_checks a
    /\ critical_items a' ≡ₚ critical_items a
    /\ warning_items a' ≡ₚ warning_items a
    /\ error_items a' ≡ₚ error_items a.
Proof.
  intros Hall Hp.
  pose proof (forallb_Permutation _ _ _ Hp Hall) as Hall'.
  do 2 eexists. split; [apply (analyze_tallied results Hall)|].
  split; [apply (analyze_tallied results' Hall')|].
  cbn [summary safety_level action_required critical_issues warnings passed errors
       compliance_percentage total_checks critical_items warning_items error_items].
  unfold classify, tallied.
  cbn [Loop.critical_issues Loop.warnings Loop.passed Loop.errors Loop.critical_items
       Loop.warning_items Loop.error_items Loop.start Nat.add app].
  rewrite <- !(count_status_Permutation _ _ _ Hp).
  rewrite <- (Permutation_length Hp).
  repeat (split; [reflexivity|]).
  split; [|split]; apply Permutation_map, Permutation_sym, with_status_Permutation, Hp.
Qed.

Lemma percentage_none_passed (d : nat) :
  exists q, as_number (percentage 0 d) = Some (FFin q) /\ (q == 0)%Q.
Proof.
  unfold percentage. destruct d as [|d].
  - exists (inject_Z 0). split; reflexivity.
  - eexists. split; [reflexivity|].
    assert (H0 : (rnd (inject_Z (Z.of_nat 0) / inject_Z (Z.of_nat (S d))) == 0)%Q).
    { rewrite (rnd_proper _ 0); [apply rnd_0 | unfold Qdiv; apply Qmult_0_l]. }
    rewrite (rnd_proper _ 0); [apply rnd_0 | rewrite H0; reflexivity].
Qed.

Lemma percentage_all_passed (p : nat) :
  0 < p -> exists q, as_number (percentage p p) = Some (FFin q) /\ (q == 100)%Q.
Proof.
  intros Hp. unfold percentage. destruct p as [|p]; [lia|].
  eexists. split; [reflexivity|].
  assert (H1 : (rnd (inject_Z (Z.of_nat (S p)) / inject_Z (Z.of_nat (S p))) == 1)%Q).
  { rewrite (rnd_proper _ 1); [apply rnd_1|]. apply Qmult_inv_r.
    intros H. unfold Qeq in H. cbn [Qnum Qden inject_Z] in H. lia. }
  rewrite (rnd_proper _ 100); [apply rnd_100 | rewrite H1; reflexivity].
Qed.

(** X8. The percentage is 0 when no result passed, and 100 when some
    passed and none failed or gave a warning, however many results are
    errors or skipped. *)
Theorem compliance_extremes (results : list dict) :
  forallb is_check_result results = true ->
  exists a q,
    analyze results = Ok a
    /\ as_number (compliance_percentage a) = Some (FFin q)
    /\ (count_status "pass" results = 0 -> (q == 0)%Q)
    /\ (count_status "fail" results = 0 -> count_status "warning" results = 0 ->
        0 < count_status "pass" results -> (q == 100)%Q).
Proof.
  intros Hall.
  destruct (percentage_bounds (count_status "pass" results)
              (count_status "fail" results + count_status "warning" results
               + count_status "pass" results) ltac:(lia)) as (q & Hq & _).
  eexists. exists q. split; [apply (analyze_tallied results Hall)|].
  cbn [compliance_percentage]. unfold tallied.
  cbn [Loop.critical_issues Loop.warnings Loop.passed Loop.start Nat.add].
  split; [exact Hq|]. split.
  - intros H0. rewrite H0 in Hq.
    destruct (percentage_none_passed
                (count_status "fail" results + count_status "warning" results + 0))
      as (q' & Hq' & H).
    rewrite Hq in Hq'. injection Hq' as ->. exact H.
  - intros Hf Hw Hp. rewrite Hf, Hw in Hq. cbn [Nat.add] in Hq.
    destruct (percentage_all_passed _ Hp) as (q' & Hq' & H).
    rewrite Hq in Hq'. injection Hq' as ->. exact H.
Qed.

End AnalyzerOrder.

Lemma analyze_permutation_witness :
  forallb is_check_result sample_results = true
  /\ sample_results ≡ₚ rev sample_results
  /\ exists a a',
       @analyze truncating sample_results = Ok a
       /\ @analyze truncating (rev sample_results) = Ok a'
       /\ summary a' = summary a
       /\ safety_level a' = safety_level a
       /\ action_required a' = action_required a
       /\ (critical_issues a', warnings a', passed a', errors a')
          = (critical_issues a, warnings a, passed a, errors a)
       /\ compliance_percentage a' = compliance_percentage a
       /\ total_checks a' = total_checks a
       /\ critical_items a' ≡ₚ critical_items a
       /\ warning_items a' ≡ₚ warning_items a
       /\ error_items a' ≡ₚ error_items a.
Proof.
  assert (Hall : forallb is_check_result sample_results = true)
    by (vm_compute; reflexivity).
  assert (Hp : sample_results ≡ₚ rev sample_results) by apply Permutation_rev.
  split; [exact Hall|]. split; [exact Hp|].
  exact (@analyze_permutation truncating sample_results (rev sample_results) Hall Hp).
Defined.

Lemma compliance_extremes_witness :
  let results := [result_dict test_visual (PStr "SIMULATED VISUAL INSPECTION") "pass"
                    "2024-01-01T00:00:00";
                  error_dict test_mechanical (Exception "brake controller offline")
                    "2024-01-01T00:00:00"] in
  forallb is_check_result results = true
  /\ exists a q,
       @analyze truncating results = Ok a
       /\ as_number (compliance_percentage a) = Some (FFin q)
       /\ (count_status "pass" results = 0 -> (q == 0)%Q)
       /\ (count_status "fail" results = 0 -> count_status "warning" results = 0 ->
           0 < count_status "pass" results -> (q == 100)%Q).
Proof.
  intros results.
  assert (Hall : forallb is_check_result results = true) by (vm_compute; reflexivity).
  split; [exact Hall | exact (@compliance_extremes truncating results Hall)].
Defined.

(** ** The statuses a run gives *)

Lemma evaluate_status (value thresholds : pyval) (s : string) :
  _evaluate_sensor_reading value thresholds = Ok s ->
  s = "fail" \/ s = "warning" \/ s = "pass".
Proof.
  unfold _evaluate_sensor_reading.
  destruct (below value thresholds "min_critical") as [[]|]; cbn [obind];
    [intros [= <-]; auto | | discriminate].
  destruct (above value thresholds "max_critical") as [[]|]; cbn [obind];
    [intros [= <-]; auto | | discriminate].
  destruct (below value thresholds "min_warning") as [[]|]; cbn [obind];
    [intros [= <-]; auto | | discriminate].
  destruct (above value thresholds "max_warning") as [[]|]; cbn [obind];
    [intros [= <-]; auto | intros [= <-]; auto | discriminate].
Qed.

Section RunStatuses.
Context {W : Type} {elevator_interface : ElevatorInterface W}.

(** A check that returns gives 'skipped' to the items of an unknown kind
    and 'pass', 'warning' or 'fail' to the others. *)
Lemma checked_status (item : dict) (w w' : W) (value : pyval) (s : string) :
  checked item w = (Ok (value, s), w') ->
  (unknown_kind item = true /\ s = "skipped")
  \/ (unknown_kind item = false /\ (s = "fail" \/ s = "warning" \/ s = "pass")).
Proof.
  unfold checked, dispatch, sbind, eval, sret, hardware, unknown_kind, getitem.
  destruct (item !! "type") as [ty|]; [|discriminate].
  destruct (py_eq_str ty "sensor").
  { destruct (item !! "sensor_id") as [sid|]; [|discriminate].
    destruct (get_sensor_reading sid w) as [[v|e] w1]; [|discriminate].
    destruct (item !! "thresholds") as [th|]; [|discriminate].
    destruct (_evaluate_sensor_reading v th) as [st|e] eqn:Hev; [|discriminate].
    intros [= _ <- _]. right. split; [reflexivity | exact (evaluate_status v th st Hev)]. }
  destruct (py_eq_str ty "visual"); [intros [= _ <- _]; right; simpl; auto|].
  destruct (py_eq_str ty "mechanical"); [|intros [= _ <- _]; left; auto].
  destruct (item !! "component_id") as [cid|]; [|discriminate].
  destruct (test_mechanical_component cid w) as [[v|e] w1]; [|discriminate].
  intros [= _ <- _]. right. split; [reflexivity|]. destruct (truthy v); auto.
Qed.

Lemma checked_raise_known (item : dict) (w w' : W) (e : exn) :
  checked item w = (Raise e, w') -> unknown_kind item = false.
Proof.
  intros H. destruct (unknown_kind item) eqn:Hk; [|reflexivity].
  rewrite (checked_unknown_kind item w Hk) in H. discriminate.
Qed.

(** The status of the result of one turn: 'skipped' for an unknown kind,
    one of the four tallied statuses for the others. *)
Lemma inspected_status (item : dict) (w : W) :
  exists s, (inspected item w).1 !! "status" = Some (PStr s)
    /\ ((unknown_kind item = true /\ s = "skipped")
        \/ (unknown_kind item = false
            /\ (s = "fail" \/ s = "warning" \/ s = "pass" \/ s = "error"))).
Proof.
  unfold inspected. destruct (checked item w) as [[[value st]|e] w1] eqn:Hc;
    destruct (now_isoformat w1) as [ts w2]; cbn [fst].
  - exists st. destruct (lookup_result_dict item value st ts) as (_ & _ & _ & _ & -> & _).
    split; [reflexivity|]. destruct (checked_status _ _ _ _ _ Hc) as [?|[? ?]]; [auto|].
    right. split; [assumption | tauto].
  - exists "error". destruct (lookup_error_dict item e ts) as (_ & _ & _ & _ & -> & _).
    split; [reflexivity|]. right. split; [exact (checked_raise_known _ _ _ _ Hc) | auto].
Qed.

Lemma has_status_of (r : dict) (s s' : string) :
  r !! "status" = Some (PStr s) -> has_status s' r = String.eqb s s'.
Proof. intros H. unfold has_status. rewrite H. reflexivity. Qed.

(** Every result of a run is in exactly one of five bins, and the bin
    'skipped' holds the results of the items of an unknown kind. *)
Lemma inspected_all_bins (items : list dict) (w : W) :
  let rs := (inspected_all items w).1 in
  count_status "fail" rs + count_status "warning" rs + count_status "pass" rs
  + count_status "error" rs + count_status "skipped" rs = length items
  /\ count_status "skipped" rs = length (List.filter unknown_kind items).
Proof.
  revert w. induction items as [|item rest IH]; intros w; [split; reflexivity|].
  cbn [inspected_all]. destruct (inspected_status item w) as (s & Hs & Hkind).
  destruct (inspected item w) as [r w1]. cbn [fst] in Hs. specialize (IH w1).
  destruct (inspected_all rest w1) as [rs w2]. cbn [fst] in *.
  rewrite !count_status_cons, !(has_status_of r s _ Hs). cbn [List.filter length].
  destruct IH as [IH1 IH2].
  destruct Hkind as [[-> ->] | [-> [-> | [-> | [-> | ->]]]]]; cbn; split; lia.
Qed.

End RunStatuses.

Section RunCounts.
Context {W : Type} {elevator_interface : ElevatorInterface W} {rounding : Rounding}.

(** X9. After a run and its analysis every item is counted once: the
    four counters add up to the number of items of a known kind, and
    [total_checks] is the length of the checklist. *)
Theorem run_then_analyze_counts (items : list dict) (w : W) :
  forallb item_ok items = true ->
  exists results w' a,
    run_inspection items w = (Ok results, w')
    /\ analyze results = Ok a
    /\ total_checks a = length items
    /\ critical_issues a + warnings a + passed a + errors a
       + length (List.filter unknown_kind items) = length items.
Proof.
  intros Hall.
  pose proof (inspected_all_check_results items w) as Hwf.
  destruct (inspected_all_bins items w) as [Hsum Hskip].
  exists (inspected_all items w).1, (inspected_all items w).2. eexists.
  split; [apply (run_inspection_inspected items w Hall)|].
  split; [apply (analyze_tallied _ Hwf)|].
  cbn [total_checks critical_issues warnings passed errors]. unfold tallied.
  cbn [Loop.critical_issues Loop.warnings Loop.passed Loop.errors Loop.start Nat.add].
  split; [apply inspected_all_length|]. rewrite <- Hskip. exact Hsum.
Qed.

End RunCounts.

Lemma run_then_analyze_counts_witness :
  let items := [test_sensor; acoustic_item; test_visual; test_mechanical] in
  let w := Mock.returning (float_of 30 1) (PBool false) in
  forallb item_ok items = true
  /\ exists results w' a,
       run_inspection items w = (Ok results, w')
       /\ @analyze truncating results = Ok a
       /\ total_checks a = length items
       /\ critical_issues a + warnings a + passed a + errors a
          + length (List.filter unknown_kind items) = length items.
Proof.
  intros items w.
  assert (Hall : forallb item_ok items = true) by (vm_compute; reflexivity).
  split; [exact Hall | exact (@run_then_analyze_counts _ _ truncating items w Hall)].
Defined.

(** ** Items that make no hardware call, or cannot make theirs *)

Lemma count_status_two (s : string) (rs : list dict) (i j : nat) (r r' : dict) :
  i < j -> rs !! i = Some r -> rs !! j = Some r' ->
  has_status s r = true -> has_status s r' = true ->
  2 <= count_status s rs.
Proof.
  revert i j. induction rs as [|x rs IH]; intros i j Hij Hi Hj Hr Hr'; [discriminate|].
  rewrite count_status_cons. destruct j as [|j]; [lia|]. cbn in Hj.
  destruct i as [|i].
  - injection Hi as ->. rewrite Hr.
    assert (0 < count_status s rs).
    { apply (count_status_pos s r'); [|exact Hr'].
      apply list_elem_of_In, list_elem_of_lookup. eauto. }
    lia.
  - cbn in Hi. assert (2 <= count_status s rs) by (apply (IH i j); auto; lia).
    destruct (has_status s x); lia.
Qed.

Section ItemsAndHardware.
Context {W : Type} {elevator_interface : ElevatorInterface W}.

Lemma run_one (item : dict) (w : W) :
  item_ok item = true ->
  run_inspection [item] w = (Ok [(inspected item w).1], (inspected item w).2).
Proof.
  intros Hok. rewrite run_inspection_inspected by (simpl; rewrite Hok; reflexivity).
  cbn [inspected_all]. destruct (inspected item w). reflexivity.
Qed.

(** X10. An item that is neither a sensor nor a mechanical item makes no
    hardware call: the world after it is the world after one reading of
    the clock. A visual item passes, with the placeholder as its value;
    any other kind is skipped. *)
Theorem no_hardware_call (item : dict) (ty : pyval) (w : W) :
  item_ok item = true ->
  item !! "type" = Some ty ->
  py_eq_str ty "sensor" = false ->
  py_eq_str ty "mechanical" = false ->
  exists r,
    run_inspection [item] w = (Ok [r], (now_isoformat w).2)
    /\ r !! "status"
       = Some (PStr (if py_eq_str ty "visual" then "pass" else "skipped"))
    /\ r !! "value"
       = Some (if py_eq_str ty "visual" then PStr "SIMULATED VISUAL INSPECTION"
               else PNone).
Proof.
  intros Hok Hty Hs Hm.
  assert (Hc : checked item w
               = (Ok (if py_eq_str ty "visual"
                      then (PStr "SIMULATED VISUAL INSPECTION", "pass")
                      else (PNone, "skipped")), w)).
  { unfold checked, dispatch, sbind, eval, sret, getitem. rewrite Hty, Hs.
    destruct (py_eq_str ty "visual"); [reflexivity|]. rewrite Hm. reflexivity. }
  exists (inspected item w).1. rewrite (run_one item w Hok).
  unfold inspected. rewrite Hc. destruct (now_isoformat w) as [ts w1]. cbn [fst snd].
  split; [reflexivity|].
  destruct (py_eq_str ty "visual").
  - destruct (lookup_result_dict item (PStr "SIMULATED VISUAL INSPECTION") "pass" ts)
      as (_ & _ & _ & -> & -> & _). auto.
  - destruct (lookup_result_dict item PNone "skipped" ts) as (_ & _ & _ & -> & -> & _).
    auto.
Qed.

(** X11. A sensor item without [sensor_id] and a mechanical item without
    [component_id] are errors that name the missing key, and the hardware
    is not called for them. *)
Theorem missing_hardware_key (item : dict) (kind key : string) (w : W) :
  item_ok item = true ->
  (kind, key) = ("sensor", "sensor_id") \/ (kind, key) = ("mechanical", "component_id") ->
  item !! "type" = Some (PStr kind) ->
  item !! key = None ->
  exists r,
    run_inspection [item] w = (Ok [r], (now_isoformat w).2)
    /\ r !! "status" = Some (PStr "error")
    /\ r !! "error" = Some (PStr ("'" +:+ key +:+ "'"))
    /\ r !! "value" = Some PNone.
Proof.
  intros Hok Hkind Hty Hkey.
  assert (Hc : checked item w = (Raise (KeyError key), w)).
  { unfold checked, dispatch, sbind, eval, sret, getitem. rewrite Hty.
    destruct Hkind as [[= -> ->] | [= -> ->]];
      cbn [py_eq_str String.eqb Ascii.eqb Bool.eqb andb]; rewrite Hkey; reflexivity. }
  exists (inspected item w).1. rewrite (run_one item w Hok).
  unfold inspected. rewrite Hc. destruct (now_isoformat w) as [ts w1]. cbn [fst snd].
  split; [reflexivity|].
  destruct (lookup_error_dict item (KeyError key) ts)
    as (_ & _ & _ & -> & -> & _ & _ & ->). auto.
Qed.

(** A sensor item without thresholds is an error whatever its sensor
    does: the reading raises, or the lookup of the thresholds does. *)
Lemma inspected_without_thresholds (item : dict) (sensor_id : pyval) (w : W) :
  item !! "type" = Some (PStr "sensor") ->
  item !! "sensor_id" = Some sensor_id ->
  item !! "thresholds" = None ->
  has_status "error" (inspected item w).1 = true.
Proof.
  intros Hty Hsid Hth.
  assert (Hc : exists e w1, checked item w = (Raise e, w1)).
  { unfold checked, dispatch, sbind, eval, sret, hardware, getitem. rewrite Hty.
    cbn [py_eq_str String.eqb Ascii.eqb Bool.eqb andb]. rewrite Hsid.
    destruct (get_sensor_reading sensor_id w) as [[v|e] w1]; [rewrite Hth|]; eauto. }
  destruct Hc as (e & w1 & Hc). unfold inspected. rewrite Hc.
  destruct (now_isoformat w1) as [ts w2]. cbn [fst]. unfold has_status.
  destruct (lookup_error_dict item e ts) as (_ & _ & _ & _ & -> & _). reflexivity.
Qed.

End ItemsAndHardware.

(** ** The simulated hardware *)

Lemma connect_one_spec (sensor_id : string) (config : pyval) (acc : dict * bool) :
  Sim.connect_one sensor_id config acc
  = match declared_type config with
    | Some ty => (<[sensor_id := Sim.sensor_entry ty config]> acc.1, acc.2)
    | None => (acc.1, false)
    end.
Proof.
  unfold Sim.connect_one, declared_type.
  destruct (subscript config "type"); reflexivity.
Qed.

Lemma connect_fold (d before : dict) :
  let r := map_fold Sim.connect_one (before, true) d in
  (forall k, r.1 !! k = connected_as d before k)
  /\ (r.2 = true <-> all_typed d).
Proof.
  cbv zeta.
  apply (map_fold_weak_ind
           (fun r d => (forall k, r.1 !! k = connected_as d before k)
                       /\ (r.2 = true <-> all_typed d))).
  - split.
    + intros k. unfold connected_as. rewrite lookup_empty. reflexivity.
    + split; [intros _ k c Hk; rewrite lookup_empty in Hk; discriminate | reflexivity].
  - intros i x m r Hi [Hlook Hall]. rewrite connect_one_spec. split.
    + intros k. unfold connected_as. destruct (decide (i = k)) as [->|Hne].
      * rewrite lookup_insert_eq. destruct (declared_type x); cbn [fst].
        -- apply lookup_insert_eq.
        -- rewrite Hlook. unfold connected_as. rewrite Hi. reflexivity.
      * rewrite (lookup_insert_ne m i k x Hne). fold (connected_as m before k).
        destruct (declared_type x); cbn [fst]; [|apply Hlook].
        rewrite lookup_insert_ne by exact Hne. apply Hlook.
    + unfold all_typed. split.
      * intros Hr k c Hk. destruct (declared_type x) eqn:Hx; cbn [snd] in Hr;
          [|discriminate].
        destruct (decide (i = k)) as [->|Hne].
        -- rewrite lookup_insert_eq in Hk. injection Hk as <-. rewrite Hx. eauto.
        -- rewrite lookup_insert_ne in Hk by exact Hne.
           apply Hall in Hr. exact (Hr k c Hk).
      * intros Hm. assert (Hx : is_Some (declared_type x))
          by (apply (Hm i); apply lookup_insert_eq).
        destruct Hx as [ty ->]. cbn [snd]. apply Hall.
        intros k c Hk. apply (Hm k). rewrite lookup_insert_ne; [exact Hk|].
        intros ->. rewrite Hi in Hk. discriminate.
Qed.

(** X12. [connect_sensors] over a dictionary of configurations returns
    [True] exactly when every configuration declares a type; it stores an
    entry for each sensor that does, under its id, and leaves every other
    id as it was. *)
Theorem connect_sensors_outcome (m : Sim.sensor_manager) (d : dict) :
  Sim.sensor_config m = PDict d ->
  exists success m',
    Sim.connect_sensors m = (Ok success, m')
    /\ Sim.sensor_config m' = PDict d
    /\ (success = true <-> all_typed d)
    /\ forall sensor_id,
         Sim.connected_sensors m' !! sensor_id
         = connected_as d (Sim.connected_sensors m) sensor_id.
Proof.
  intros Hd. unfold Sim.connect_sensors. rewrite Hd.
  destruct (connect_fold d (Sim.connected_sensors m)) as [Hlook Hall].
  destruct (map_fold Sim.connect_one (Sim.connected_sensors m, true) d)
    as [connected success].
  do 2 eexists. split; [reflexivity|]. cbn [Sim.sensor_config Sim.connected_sensors].
  split; [reflexivity|]. split; [exact Hall | exact Hlook].
Qed.

Lemma connect_sensors_outcome_witness :
  let d : dict :=
    list_to_map [("temp_motor", PDict (list_to_map [("type", PStr "temperature")]));
                 ("spare", PDict (list_to_map [("location", PStr "pit")]))] in
  let m := {| Sim.sensor_config := PDict d; Sim.connected_sensors := ∅ |} in
  Sim.sensor_config m = PDict d
  /\ exists success m',
       Sim.connect_sensors m = (Ok success, m')
       /\ Sim.sensor_config m' = PDict d
       /\ (success = true <-> all_typed d)
       /\ forall sensor_id,
            Sim.connected_sensors m' !! sensor_id
            = connected_as d (Sim.connected_sensors m) sensor_id.
Proof.
  intros d m. split; [reflexivity|].
  exact (connect_sensors_outcome m d eq_refl).
Defined.

Section InspectedInvariant.
Context {W : Type} {elevator_interface : ElevatorInterface W}.

(** A property of the world that every turn of the loop keeps holds in
    the world each item is checked in, and at the end of the run. *)
Lemma inspected_all_invariant (P : W -> Prop) :
  (forall item w, P w -> P (inspected item w).2) ->
  forall items w, P w ->
    P (inspected_all items w).2
    /\ forall i item, items !! i = Some item ->
         exists wi, P wi /\ (inspected_all items w).1 !! i = Some (inspected item wi).1.
Proof.
  intros Hstep. induction items as [|x rest IH]; intros w Hw.
  - split; [exact Hw | intros i item Hi; discriminate].
  - cbn [inspected_all]. pose proof (Hstep x w Hw) as Hw1.
    destruct (inspected x w) as [r w1] eqn:Hx. cbn [snd] in Hw1.
    destruct (IH w1 Hw1) as [Hend Hlook].
    destruct (inspected_all rest w1) as [rs w2]. cbn [fst snd] in *.
    split; [exact Hend|]. intros [|i] item Hi.
    + injection Hi as <-. exists w. rewrite Hx. auto.
    + exact (Hlook i item Hi).
Qed.

(** X13. A sensor whose reading is [None]: with no bound among its
    thresholds the item passes, with the value [None]; with any bound it
    is an error. *)
Theorem none_reading_result (item : dict) (w w1 : W) (sensor_id : pyval) (d : dict) :
  item_ok item = true ->
  item !! "type" = Some (PStr "sensor") ->
  item !! "sensor_id" = Some sensor_id ->
  item !! "thresholds" = Some (PDict d) ->
  get_sensor_reading sensor_id w = (Ok PNone, w1) ->
  exists r,
    run_inspection [item] w = (Ok [r], (now_isoformat w1).2)
    /\ r !! "value" = Some PNone
    /\ r !! "status" = Some (PStr (if has_bound d then "error" else "pass")).
Proof.
  intros Hok Hty Hsid Hth Hread.
  assert (Hc : checked item w
               = (match _evaluate_sensor_reading PNone (PDict d) with
                  | Ok st => Ok (PNone, st)
                  | Raise e => Raise e
                  end, w1)).
  { unfold checked, dispatch, sbind, eval, sret, hardware, getitem.
    rewrite Hty. cbn [py_eq_str String.eqb Ascii.eqb Bool.eqb andb].
    rewrite Hsid, Hread, Hth.
    destruct (_evaluate_sensor_reading PNone (PDict d)); reflexivity. }
  exists (inspected item w).1. split.
  - rewrite run_inspection_inspected by (simpl; rewrite Hok; reflexivity).
    cbn [inspected_all]. unfold inspected. rewrite Hc.
    destruct (now_isoformat w1). reflexivity.
  - unfold inspected. rewrite Hc. pose proof (none_reading_cases d) as Hnone.
    destruct (_evaluate_sensor_reading PNone (PDict d)) as [st|e];
      destruct (now_isoformat w1) as [ts w2]; cbn [fst].
    + destruct Hnone as [-> ->].
      destruct (lookup_result_dict item PNone "pass" ts) as (_ & _ & _ & -> & -> & _).
      auto.
    + destruct Hnone as [-> _].
      destruct (lookup_error_dict item e ts) as (_ & _ & _ & -> & -> & _). auto.
Qed.

End InspectedInvariant.

Section SimProperties.
Context {rounding : Rounding}.

Lemma sim_checked_handle (item : dict) (w : Sim.world) :
  Sim.handle (checked item w).2 = Sim.handle w
  /\ (Sim.connected (Sim.handle w) = false ->
      Sim.generator (checked item w).2 = Sim.generator w).
Proof.
  unfold checked, dispatch, sbind, eval, sret, hardware.
  cbn [get_sensor_reading test_mechanical_component Sim.elevator].
  unfold Sim.sim_get_sensor_reading, Sim.sim_test_mechanical_component,
    Sim.using_generator.
  destruct (getitem item "type") as [ty|e]; [|split; reflexivity].
  destruct (py_eq_str ty "sensor").
  { destruct (getitem item "sensor_id") as [sid|e]; [|split; reflexivity].
    destruct (Sim.connected (Sim.handle w)); cbn [negb].
    - destruct (Sim.get_reading _ sid (Sim.generator w)) as [[v|e] g];
        [|split; [reflexivity | discriminate]].
      destruct (getitem item "thresholds") as [th|e];
        [|split; [reflexivity | discriminate]].
      destruct (_evaluate_sensor_reading v th); split; (reflexivity || discriminate).
    - destruct (getitem item "thresholds") as [th|e]; [|split; reflexivity].
      destruct (_evaluate_sensor_reading PNone th); split; reflexivity. }
  destruct (py_eq_str ty "visual"); [split; reflexivity|].
  destruct (py_eq_str ty "mechanical"); [|split; reflexivity].
  destruct (getitem item "component_id") as [cid|e]; [|split; reflexivity].
  destruct (Sim.connected (Sim.handle w)); cbn [negb]; split;
    (reflexivity || discriminate).
Qed.

Lemma sim_inspected_handle (item : dict) (w : Sim.world) :
  Sim.handle (inspected item w).2 = Sim.handle w
  /\ (Sim.connected (Sim.handle w) = false ->
      Sim.generator (inspected item w).2 = Sim.generator w).
Proof.
  unfold inspected. destruct (sim_checked_handle item w) as [Hh Hg].
  destruct (checked item w) as [o w1]. cbn [snd] in *.
  cbn [now_isoformat Sim.elevator]. cbn [snd Sim.handle Sim.generator].
  split; [exact Hh | exact Hg].
Qed.

(** X14. On an interface that is not connected no reading is taken and
    no test is run: a checklist with a mechanical item gets the verdict
    'critical', and the random generator is not touched. *)
Theorem disconnected_is_critical
    (items : list dict) (w : Sim.world) (i : nat) (item : dict) (cid : pyval) :
  Sim.connected (Sim.handle w) = false ->
  forallb item_ok items = true ->
  items !! i = Some item ->
  item !! "type" = Some (PStr "mechanical") ->
  item !! "component_id" = Some cid ->
  exists results w' a r,
    run_inspection items w = (Ok results, w')
    /\ results !! i = Some r
    /\ r !! "status" = Some (PStr "fail")
    /\ r !! "value" = Some (PBool false)
    /\ analyze results = Ok a
    /\ safety_level a = "critical"
    /\ Sim.generator w' = Sim.generator w.
Proof.
  intros Hoff Hall Hi Hty Hcid.
  set (P := fun w' : Sim.world =>
              Sim.connected (Sim.handle w') = false
              /\ Sim.generator w' = Sim.generator w).
  assert (Hstep : forall item w', P w' -> P (inspected item w').2).
  { intros it w' [H1 H2]. destruct (sim_inspected_handle it w') as [Hh Hg].
    split; [rewrite Hh; exact H1 | rewrite (Hg H1); exact H2]. }
  destruct (inspected_all_invariant P Hstep items w (conj Hoff eq_refl))
    as [[_ Hgen] Hlook].
  destruct (Hlook i item Hi) as (wi & [Hoffi _] & Hri).
  assert (Hc : checked item wi = (Ok (PBool false, "fail"), wi)).
  { unfold checked, dispatch, sbind, eval, sret, hardware, getitem.
    rewrite Hty. cbn [py_eq_str String.eqb Ascii.eqb Bool.eqb andb]. rewrite Hcid.
    cbn [test_mechanical_component Sim.elevator].
    unfold Sim.sim_test_mechanical_component. rewrite Hoffi. reflexivity. }
  assert (Hr : (inspected item wi).1 !! "status" = Some (PStr "fail")
               /\ (inspected item wi).1 !! "value" = Some (PBool false)).
  { unfold inspected. rewrite Hc. destruct (now_isoformat wi) as [ts w2]. cbn [fst].
    destruct (lookup_result_dict item (PBool false) "fail" ts)
      as (_ & _ & _ & -> & -> & _). auto. }
  destruct Hr as [Hstatus Hvalue].
  pose proof (inspected_all_check_results items w) as Hwf.
  exists (inspected_all items w).1, (inspected_all items w).2. eexists.
  exists (inspected item wi).1.
  split; [apply (run_inspection_inspected items w Hall)|].
  split; [exact Hri|]. split; [exact Hstatus|]. split; [exact Hvalue|].
  split; [apply (analyze_tallied _ Hwf)|]. split; [|exact Hgen].
  cbn [safety_level]. unfold classify, tallied.
  cbn [Loop.critical_issues Loop.start Nat.add].
  assert (Hpos : 0 < count_status "fail" (inspected_all items w).1).
  { apply (count_status_pos "fail" (inspected item wi).1).
    - apply list_elem_of_In. apply list_elem_of_lookup. eauto.
    - unfold has_status. rewrite Hstatus. reflexivity. }
  apply Nat.ltb_lt in Hpos. rewrite Hpos. reflexivity.
Qed.

(** X15. A single sensor configuration that declares no type leaves the
    new interface disconnected: from then on every sensor, the well
    configured ones too, reads [None], and every mechanical test returns
    [False]. *)
Theorem untyped_sensor_disconnects
    (id : pyval) (config d : dict) (sensor_id : string) (bad : pyval) :
  get config "sensors" (PDict ∅) = PDict d ->
  d !! sensor_id = Some bad ->
  declared_type bad = None ->
  exists i,
    Sim.new_interface id config = Ok i
    /\ Sim.connected i = false
    /\ forall w, Sim.handle w = i ->
         (forall sid, get_sensor_reading sid w = (Ok PNone, w))
         /\ (forall cid, test_mechanical_component cid w = (Ok (PBool false), w)).
Proof.
  intros Hd Hbad Htype. unfold Sim.new_interface, Sim.new_sensor_manager.
  rewrite Hd. cbn [Sim.sized obind]. unfold Sim._connect, Sim.connect_sensors.
  cbn [Sim.manager Sim.sensor_config Sim.connected_sensors].
  destruct (connect_fold d ∅) as [_ Hall].
  destruct (map_fold Sim.connect_one (∅, true) d) as [connected success].
  cbn [snd] in Hall. eexists. split; [reflexivity|].
  cbn [snd Sim.connected].
  assert (Hs : success = false).
  { destruct success; [|reflexivity].
    destruct (proj1 Hall eq_refl sensor_id bad Hbad) as [ty Hty]. congruence. }
  split; [exact Hs|]. intros w Hw.
  cbn [get_sensor_reading test_mechanical_component Sim.elevator].
  unfold Sim.sim_get_sensor_reading, Sim.sim_test_mechanical_component.
  rewrite Hw. cbn [Sim.connected]. rewrite Hs. split; reflexivity.
Qed.

Lemma entry_type (ty config : pyval) :
  subscript (Sim.sensor_entry ty config) "type" = Ok ty.
Proof.
  unfold Sim.sensor_entry, subscript, getitem. cbn [list_to_map foldr fst snd].
  simplify_map_eq. reflexivity.
Qed.

Lemma entry_config (ty config : pyval) :
  subscript (Sim.sensor_entry ty config) "config" = Ok config.
Proof.
  unfold Sim.sensor_entry, subscript, getitem. cbn [list_to_map foldr fst snd].
  simplify_map_eq. reflexivity.
Qed.

Lemma spread_range (lo hi v u : Q) :
  fixes lo -> fixes hi -> fixes (hi - lo) -> (v == hi - lo)%Q -> (0 <= v)%Q ->
  unit_draw u ->
  (lo <= rnd (lo + rnd (u * v)) <= hi)%Q.
Proof.
  unfold fixes, unit_draw. intros Hlo Hhi Hd Hv Hv0 [Hu0 Hu1].
  assert (Hfv : (rnd v == v)%Q) by (rewrite (rnd_proper v (hi - lo) Hv), Hd, Hv; reflexivity).
  assert (Huv : (0 <= u * v <= v)%Q).
  { split.
    - apply Qmult_le_0_compat; assumption.
    - rewrite <- (Qmult_1_l v) at 2. apply Qmult_le_compat_r; [|exact Hv0].
      apply Qlt_le_weak, Hu1. }
  apply (rnd_between 0 v _ rnd_0 Hfv) in Huv.
  apply (rnd_between lo hi _ Hlo Hhi). lra.
Qed.

(** What [read] gives for the entry of a sensor of one of the four types
    with a fixed interval. *)
Lemma read_spread (ty : string) (config : pyval) (lo hi : Q) (g : Sim.rng) :
  reading_range ty = Some (lo, hi) ->
  fixes lo -> fixes hi -> fixes (hi - lo) ->
  unit_draw (Sim.draws g (Sim.drawn g)) ->
  exists q,
    Sim.read (Sim.sensor_entry (PStr ty) config) g
    = (Ok (PFloat (FFin q)), after_draw g)
    /\ (lo <= q <= hi)%Q.
Proof.
  intros Hrange Hlo Hhi Hd Hu. unfold Sim.read, sbind, eval.
  rewrite !entry_type, !entry_config. cbn [py_eq_str]. unfold reading_range in Hrange.
  unfold Sim._simulate_temperature_reading, Sim._simulate_pressure_reading,
    Sim._simulate_vibration_reading, Sim._simulate_speed_reading.
  destruct (String.eqb ty "temperature");
    [|destruct (String.eqb ty "pressure");
      [|destruct (String.eqb ty "vibration");
        [|destruct (String.eqb ty "speed"); [|discriminate]]]];
    injection Hrange as <- <-;
    (eexists; split; [reflexivity|]);
    (apply spread_range; [exact Hlo | exact Hhi | exact Hd | reflexivity
                         | discriminate | exact Hu]).
Qed.

(** X16. A connected temperature, pressure, vibration or speed sensor
    always gives a reading, a float within the interval of its type, and
    makes one draw. *)
Theorem reading_in_range
    (m : Sim.sensor_manager) (sensor_id ty : string) (config : pyval) (lo hi : Q)
    (g : Sim.rng) :
  Sim.connected_sensors m !! sensor_id = Some (Sim.sensor_entry (PStr ty) config) ->
  reading_range ty = Some (lo, hi) ->
  fixes lo -> fixes hi -> fixes (hi - lo) ->
  unit_draw (Sim.draws g (Sim.drawn g)) ->
  exists q,
    Sim.get_reading m (PStr sensor_id) g = (Ok (PFloat (FFin q)), after_draw g)
    /\ (lo <= q <= hi)%Q.
Proof.
  intros Hm Hrange Hlo Hhi Hd Hu.
  destruct (read_spread ty config lo hi g Hrange Hlo Hhi Hd Hu) as (q & Hread & Hq).
  exists q. split; [|exact Hq].
  unfold Sim.get_reading. rewrite Hm. unfold try_except. rewrite Hread. reflexivity.
Qed.

(** X17. A connected weight sensor whose capacity (that of its
    configuration, 1000 when it names none) is a finite number that is not
    negative, that is a float as it stands (rounding leaves it unchanged)
    and that is below [2^1024 - 2^970], where the conversion of an [int] to
    a float overflows, gives, for a draw in [[0, 1)], a float between zero
    and the capacity. *)
Theorem weight_in_range
    (m : Sim.sensor_manager) (sensor_id : string) (c : dict) (cap : Q) (g : Sim.rng) :
  Sim.connected_sensors m !! sensor_id
  = Some (Sim.sensor_entry (PStr "weight") (PDict c)) ->
  as_number (get c "capacity" (PInt 1000)) = Some (FFin cap) ->
  (0 <= cap)%Q -> (cap < inject_Z Sim.float_overflow)%Q -> fixes cap ->
  unit_draw (Sim.draws g (Sim.drawn g)) ->
  exists q,
    Sim.get_reading m (PStr sensor_id) g = (Ok (PFloat (FFin q)), after_draw g)
    /\ (0 <= q <= cap)%Q.
Proof.
  intros Hm Hcap Hcap0 Hbound Hfix [Hu0 Hu1].
  set (u := Sim.draws g (Sim.drawn g)) in *.
  assert (Hscaled : forall cap', (cap' == cap)%Q -> (0 <= rnd (u * cap') <= cap)%Q).
  { intros cap' Hc. apply (rnd_between 0 cap _ rnd_0 Hfix). rewrite Hc. split.
    - apply Qmult_le_0_compat; assumption.
    - rewrite <- (Qmult_1_l cap) at 2. apply Qmult_le_compat_r; [|exact Hcap0].
      apply Qlt_le_weak, Hu1. }
  assert (Htimes : exists q,
             Sim.float_times u (get c "capacity" (PInt 1000)) = Ok (PFloat (FFin q))
             /\ (0 <= q <= cap)%Q).
  { destruct (get c "capacity" (PInt 1000)) as [|b|z|f|s|d'];
      cbn [as_number] in Hcap; try discriminate.
    - (* a bool: 0 or 1, converted as an int *)
      injection Hcap as Hb.
      assert (H1 : (Z.abs (if b then 1 else 0) <? Sim.float_overflow)%Z = true)
        by (destruct b; vm_compute; reflexivity).
      unfold Sim.float_times, Sim.float_of_int. rewrite H1.
      cbn [obind Sim.float_mul]. eexists. split; [reflexivity|].
      apply Hscaled. rewrite <- Hb. destruct b; [exact rnd_1 | exact rnd_0].
    - (* an int: rounded to a float, which the capacity is already *)
      injection Hcap as Hz.
      assert (H1 : (Z.abs z <? Sim.float_overflow)%Z = true).
      { apply Z.ltb_lt. rewrite <- Hz in Hcap0, Hbound.
        unfold Qle in Hcap0. unfold Qlt in Hbound.
        cbn [Qnum Qden inject_Z] in Hcap0, Hbound. lia. }
      unfold Sim.float_times, Sim.float_of_int. rewrite H1.
      cbn [obind Sim.float_mul]. eexists. split; [reflexivity|].
      apply Hscaled. rewrite Hz. exact Hfix.
    - (* a float *)
      injection Hcap as Hf. subst f.
      unfold Sim.float_times. cbn [Sim.float_mul]. eexists. split; [reflexivity|].
      apply Hscaled. reflexivity. }
  destruct Htimes as (q & Htimes & Hq). exists q. split; [|exact Hq].
  unfold Sim.get_reading. rewrite Hm. unfold try_except, Sim.read, sbind, eval.
  rewrite !entry_type, !entry_config.
  cbn [py_eq_str String.eqb Ascii.eqb Bool.eqb andb].
  unfold Sim._simulate_weight_reading, sbind, eval, Sim.random.
  fold u. rewrite Htimes. reflexivity.
Qed.

(** An [int] capacity that is too large for a float: the product raises
    an [OverflowError] after the draw, and [get_reading] returns [None]. *)
Lemma weight_overflow_reads_none
    (m : Sim.sensor_manager) (sensor_id : string) (c : dict) (z : Z) (g : Sim.rng) :
  Sim.connected_sensors m !! sensor_id
  = Some (Sim.sensor_entry (PStr "weight") (PDict c)) ->
  get c "capacity" (PInt 1000) = PInt z ->
  (Sim.float_overflow <= Z.abs z)%Z ->
  Sim.get_reading m (PStr sensor_id) g = (Ok PNone, after_draw g).
Proof.
  intros Hm Hcap Hz.
  assert (H1 : (Z.abs z <? Sim.float_overflow)%Z = false) by (apply Z.ltb_ge; exact Hz).
  unfold Sim.get_reading. rewrite Hm. unfold try_except, Sim.read, sbind, eval.
  rewrite !entry_type, !entry_config.
  cbn [py_eq_str String.eqb Ascii.eqb Bool.eqb andb].
  unfold Sim._simulate_weight_reading, sbind, eval, Sim.random.
  rewrite Hcap. unfold Sim.float_times, Sim.float_of_int. rewrite H1. reflexivity.
Qed.

Lemma at_least_trans (lo q : Q) (b : option pyfloat) :
  (lo <= q)%Q -> at_least lo b -> at_least q b.
Proof.
  intros Hq. destruct b as [[m| | |]|]; simpl; auto. intros Hm.
  apply (Qle_trans _ lo); assumption.
Qed.

Lemma at_most_trans (hi q : Q) (b : option pyfloat) :
  (q <= hi)%Q -> at_most hi b -> at_most q b.
Proof.
  intros Hq. destruct b as [[m| | |]|]; simpl; auto. intros Hm.
  apply (Qle_trans _ hi); assumption.
Qed.

(** X18. On the connected simulated interface, take a well-formed sensor
    item that has a [thresholds] dictionary, every bound of which that is
    present is a finite number, and whose sensor is connected with one of
    the four types that read an interval (temperature, pressure, vibration,
    speed). When rounding leaves the ends and the width of that interval
    unchanged, the draw is in [[0, 1)], and the critical bounds that are
    present enclose the interval, the item never fails and is never an
    error: its value is a reading within the interval and its status
    'pass' or 'warning'. *)
Theorem simulated_reading_never_fails
    (item : dict) (w : Sim.world) (sensor_id ty : string) (config : pyval)
    (lo hi : Q) (d : dict) :
  item_ok item = true ->
  item !! "type" = Some (PStr "sensor") ->
  item !! "sensor_id" = Some (PStr sensor_id) ->
  item !! "thresholds" = Some (PDict d) ->
  finite_bounds d = true ->
  Sim.connected (Sim.handle w) = true ->
  Sim.connected_sensors (Sim.manager (Sim.handle w)) !! sensor_id
  = Some (Sim.sensor_entry (PStr ty) config) ->
  reading_range ty = Some (lo, hi) ->
  fixes lo -> fixes hi -> fixes (hi - lo) ->
  unit_draw (Sim.draws (Sim.generator w) (Sim.drawn (Sim.generator w))) ->
  at_least lo (bound_of d "min_critical") ->
  at_most hi (bound_of d "max_critical") ->
  exists r w' q,
    run_inspection [item] w = (Ok [r], w')
    /\ r !! "value" = Some (PFloat (FFin q))
    /\ (lo <= q <= hi)%Q
    /\ (r !! "status" = Some (PStr "pass") \/ r !! "status" = Some (PStr "warning")).
Proof.
  intros Hok Hty Hsid Hth Hd Hon Hm Hrange Hlo Hhi Hdiff Hu Hmin Hmax.
  destruct (read_spread ty config lo hi _ Hrange Hlo Hhi Hdiff Hu) as (q & Hread & Hq).
  assert (Hget : Sim.get_reading (Sim.manager (Sim.handle w)) (PStr sensor_id)
                   (Sim.generator w)
                 = (Ok (PFloat (FFin q)), after_draw (Sim.generator w))).
  { unfold Sim.get_reading. rewrite Hm. unfold try_except. rewrite Hread. reflexivity. }
  set (value := PFloat (FFin q)).
  assert (Hev : exists st, _evaluate_sensor_reading value (PDict d) = Ok st
                           /\ (st = "pass" \/ st = "warning")).
  { pose proof (evaluate_refines value (FFin q) d eq_refl (finite_bounds_numeric d Hd))
      as He.
    eexists. split; [exact He|].
    destruct (evaluate_status _ _ _ He) as [Hf | [-> | ->]]; auto.
    exfalso. apply (proj1 (proj2 (threshold_status_pass_fail q d Hd)) Hf).
    split; [apply (at_least_trans lo) | apply (at_most_trans hi)]; tauto. }
  destruct Hev as (st & Hev & Hst).
  assert (Hc : checked item w
               = (Ok (value, st), Sim.with_generator w (after_draw (Sim.generator w)))).
  { unfold checked, dispatch, sbind, eval, sret, hardware, getitem. rewrite Hty.
    cbn [py_eq_str String.eqb Ascii.eqb Bool.eqb andb]. rewrite Hsid.
    cbn [get_sensor_reading Sim.elevator].
    unfold Sim.sim_get_sensor_reading, Sim.using_generator. rewrite Hon. cbn [negb].
    rewrite Hget, Hth. fold value. rewrite Hev. reflexivity. }
  exists (inspected item w).1, (inspected item w).2, q.
  split; [apply (run_one item w Hok)|].
  unfold inspected. rewrite Hc. destruct (now_isoformat _) as [ts w2]. cbn [fst].
  destruct (lookup_result_dict item value st ts) as (_ & _ & _ & -> & -> & _).
  split; [reflexivity|]. split; [exact Hq|].
  destruct Hst as [-> | ->]; auto.
Qed.

End SimProperties.


Lemma disconnected_is_critical_witness :
  let w := world_of unplugged in
  Sim.connected (Sim.handle w) = false
  /\ forallb item_ok default_checklist_items = true
  /\ default_checklist_items !! 7%nat = Some brake_test
  /\ brake_test !! "type" = Some (PStr "mechanical")
  /\ brake_test !! "component_id" = Some (PStr "emergency_brake")
  /\ exists results w' a r,
       @run_inspection _ (@Sim.elevator truncating) default_checklist_items w
       = (Ok results, w')
       /\ results !! 7%nat = Some r
       /\ r !! "status" = Some (PStr "fail")
       /\ r !! "value" = Some (PBool false)
       /\ @analyze truncating results = Ok a
       /\ safety_level a = "critical"
       /\ Sim.generator w' = Sim.generator w.
Proof.
  intros w.
  assert (Hall : forallb item_ok default_checklist_items = true)
    by (vm_compute; reflexivity).
  assert (Hty : brake_test !! "type" = Some (PStr "mechanical"))
    by (vm_compute; reflexivity).
  assert (Hcid : brake_test !! "component_id" = Some (PStr "emergency_brake"))
    by (vm_compute; reflexivity).
  split; [reflexivity|]. split; [exact Hall|]. split; [reflexivity|].
  split; [exact Hty|]. split; [exact Hcid|].
  exact (@disconnected_is_critical truncating default_checklist_items w 7 brake_test
           (PStr "emergency_brake") eq_refl Hall eq_refl Hty Hcid).
Defined.

Lemma untyped_sensor_disconnects_witness :
  let d : dict :=
    list_to_map [("temp_motor", typed_sensor "temperature" []);
                 ("spare", PDict (list_to_map [("location", PStr "pit")]))] in
  let config : dict := list_to_map [("sensors", PDict d)] in
  let bad := PDict (list_to_map [("location", PStr "pit")]) in
  get config "sensors" (PDict ∅) = PDict d
  /\ d !! "spare" = Some bad
  /\ declared_type bad = None
  /\ exists i,
       Sim.new_interface (PStr "ELEV-001") config = Ok i
       /\ Sim.connected i = false
       /\ forall w, Sim.handle w = i ->
            (forall sid, @get_sensor_reading _ (@Sim.elevator truncating) sid w
                         = (Ok PNone, w))
            /\ (forall cid, @test_mechanical_component _ (@Sim.elevator truncating) cid w
                            = (Ok (PBool false), w)).
Proof.
  intros d config bad.
  assert (Hd : get config "sensors" (PDict ∅) = PDict d) by (vm_compute; reflexivity).
  assert (Hbad : d !! "spare" = Some bad) by (vm_compute; reflexivity).
  assert (Hty : declared_type bad = None) by (vm_compute; reflexivity).
  split; [exact Hd|]. split; [exact Hbad|]. split; [exact Hty|].
  exact (@untyped_sensor_disconnects truncating (PStr "ELEV-001") config d "spare" bad
           Hd Hbad Hty).
Defined.

Lemma reading_in_range_witness :
  let config := typed_sensor "temperature"
                  [("location", PStr "motor"); ("unit", PStr "celsius")] in
  Sim.connected_sensors default_manager !! "temp_motor"
  = Some (Sim.sensor_entry (PStr "temperature") config)
  /\ reading_range "temperature" = Some (35%Q, 50%Q)
  /\ @fixes truncating 35 /\ @fixes truncating 50 /\ @fixes truncating (50 - 35)
  /\ unit_draw (Sim.draws thirds (Sim.drawn thirds))
  /\ exists q,
       @Sim.get_reading truncating default_manager (PStr "temp_motor") thirds
       = (Ok (PFloat (FFin q)), after_draw thirds)
       /\ (35 <= q <= 50)%Q.
Proof.
  intros config.
  assert (Hm : Sim.connected_sensors default_manager !! "temp_motor"
               = Some (Sim.sensor_entry (PStr "temperature") config))
    by (vm_compute; reflexivity).
  assert (H35 : @fixes truncating 35) by (vm_compute; reflexivity).
  assert (H50 : @fixes truncating 50) by (vm_compute; reflexivity).
  assert (H15 : @fixes truncating (50 - 35)) by (vm_compute; reflexivity).
  assert (Hu : unit_draw (Sim.draws thirds (Sim.drawn thirds)))
    by (split; [discriminate | reflexivity]).
  split; [exact Hm|]. split; [reflexivity|]. split; [exact H35|]. split; [exact H50|].
  split; [exact H15|]. split; [exact Hu|].
  exact (@reading_in_range truncating default_manager "temp_motor" "temperature" config
           35 50 thirds Hm eq_refl H35 H50 H15 Hu).
Defined.

Lemma weight_in_range_witness :
  let c : dict := list_to_map [("capacity", PInt 1000); ("unit", PStr "kg")] in
  Sim.connected_sensors default_manager !! "weight"
  = Some (Sim.sensor_entry (PStr "weight") (PDict (<["type" := PStr "weight"]> c)))
  /\ as_number (get (<["type" := PStr "weight"]> c) "capacity" (PInt 1000))
     = Some (FFin (inject_Z 1000))
  /\ (0 <= inject_Z 1000)%Q
  /\ (inject_Z 1000 < inject_Z Sim.float_overflow)%Q
  /\ @fixes truncating (inject_Z 1000)
  /\ unit_draw (Sim.draws thirds (Sim.drawn thirds))
  /\ exists q,
       @Sim.get_reading truncating default_manager (PStr "weight") thirds
       = (Ok (PFloat (FFin q)), after_draw thirds)
       /\ (0 <= q <= inject_Z 1000)%Q.
Proof.
  intros c.
  assert (Hm : Sim.connected_sensors default_manager !! "weight"
               = Some (Sim.sensor_entry (PStr "weight")
                         (PDict (<["type" := PStr "weight"]> c))))
    by (vm_compute; reflexivity).
  assert (Hcap : as_number (get (<["type" := PStr "weight"]> c) "capacity" (PInt 1000))
                 = Some (FFin (inject_Z 1000))) by (vm_compute; reflexivity).
  assert (H0 : (0 <= inject_Z 1000)%Q) by discriminate.
  assert (Hbound : (inject_Z 1000 < inject_Z Sim.float_overflow)%Q)
    by (vm_compute; reflexivity).
  assert (Hfix : @fixes truncating (inject_Z 1000)) by (vm_compute; reflexivity).
  assert (Hu : unit_draw (Sim.draws thirds (Sim.drawn thirds)))
    by (split; [discriminate | reflexivity]).
  split; [exact Hm|]. split; [exact Hcap|]. split; [exact H0|]. split; [exact Hbound|].
  split; [exact Hfix|]. split; [exact Hu|].
  exact (@weight_in_range truncating default_manager "weight" _ (inject_Z 1000) thirds
           Hm Hcap H0 Hbound Hfix Hu).
Defined.

Section DefaultConfiguration.
Context {W : Type} {elevator_interface : ElevatorInterface W} {rounding : Rounding}.

(** X19. Whatever the hardware does, a run over the checklist of the
    default configuration gives ten results of which at least the two
    sensor items without thresholds are errors: the verdict is never
    'safe', and at most eight checks pass. *)
Theorem default_checklist_never_safe (w : W) :
  exists results w' a,
    run_inspection default_checklist_items w = (Ok results, w')
    /\ length results = 10
    /\ analyze results = Ok a
    /\ 2 <= errors a
    /\ passed a <= 8
    /\ safety_level a <> "safe".
Proof.
  assert (Hall : forallb item_ok default_checklist_items = true)
    by (vm_compute; reflexivity).
  pose proof (inspected_all_check_results default_checklist_items w) as Hwf.
  destruct (inspected_all_bins default_checklist_items w) as [Hsum _].
  destruct (inspected_all_lookup default_checklist_items w 5 door_operation eq_refl)
    as [w5 H5].
  destruct (inspected_all_lookup default_checklist_items w 6 emergency_button eq_refl)
    as [w6 H6].
  assert (Herr : 2 <= count_status "error" (inspected_all default_checklist_items w).1).
  { apply (count_status_two "error" _ 5 6 _ _ ltac:(lia) H5 H6).
    - apply (inspected_without_thresholds door_operation (PStr "door_sensor"));
        vm_compute; reflexivity.
    - apply (inspected_without_thresholds emergency_button (PStr "emergency_button"));
        vm_compute; reflexivity. }
  exists (inspected_all default_checklist_items w).1,
         (inspected_all default_checklist_items w).2. eexists.
  split; [apply (run_inspection_inspected _ w Hall)|].
  split; [apply inspected_all_length|].
  split; [apply (analyze_tallied _ Hwf)|].
  cbn [errors passed safety_level]. unfold classify, tallied.
  cbn [Loop.critical_issues Loop.warnings Loop.passed Loop.errors Loop.start Nat.add].
  change (length default_checklist_items) with 10 in Hsum.
  split; [exact Herr|]. split; [lia|].
  destruct (0 <? count_status "fail" _)%nat; [discriminate|].
  destruct (0 <? count_status "warning" _)%nat; [discriminate|].
  destruct (0 <? count_status "error" _)%nat eqn:He; [discriminate|].
  apply Nat.ltb_ge in He. lia.
Qed.

End DefaultConfiguration.

Lemma none_reading_result_witness :
  let w := Mock.returning PNone (PBool true) in
  let w1 := Mock.record_call "get_sensor_reading" (PStr "weight") w in
  let d : dict := list_to_map [("max_critical", PInt 1050)] in
  item_ok weight_sensor = true
  /\ weight_sensor !! "type" = Some (PStr "sensor")
  /\ weight_sensor !! "sensor_id" = Some (PStr "weight")
  /\ weight_sensor !! "thresholds" = Some (PDict d)
  /\ get_sensor_reading (PStr "weight") w = (Ok PNone, w1)
  /\ exists r,
       run_inspection [weight_sensor] w = (Ok [r], (now_isoformat w1).2)
       /\ r !! "value" = Some PNone
       /\ r !! "status" = Some (PStr (if has_bound d then "error" else "pass")).
Proof.
  intros w w1 d.
  assert (Hok : item_ok weight_sensor = true) by (vm_compute; reflexivity).
  assert (Hty : weight_sensor !! "type" = Some (PStr "sensor"))
    by (vm_compute; reflexivity).
  assert (Hsid : weight_sensor !! "sensor_id" = Some (PStr "weight"))
    by (vm_compute; reflexivity).
  assert (Hth : weight_sensor !! "thresholds" = Some (PDict d))
    by (vm_compute; reflexivity).
  split; [exact Hok|]. split; [exact Hty|]. split; [exact Hsid|]. split; [exact Hth|].
  split; [reflexivity|].
  exact (none_reading_result weight_sensor w w1 (PStr "weight") d Hok Hty Hsid Hth
           eq_refl).
Defined.

Lemma no_hardware_call_witness :
  let w := Mock.returning (float_of 30 1) (PBool true) in
  item_ok test_visual = true
  /\ test_visual !! "type" = Some (PStr "visual")
  /\ py_eq_str (PStr "visual") "sensor" = false
  /\ py_eq_str (PStr "visual") "mechanical" = false
  /\ exists r,
       run_inspection [test_visual] w = (Ok [r], (now_isoformat w).2)
       /\ r !! "status"
          = Some (PStr (if py_eq_str (PStr "visual") "visual" then "pass" else "skipped"))
       /\ r !! "value"
          = Some (if py_eq_str (PStr "visual") "visual"
                  then PStr "SIMULATED VISUAL INSPECTION" else PNone).
Proof.
  intros w.
  assert (Hok : item_ok test_visual = true) by (vm_compute; reflexivity).
  assert (Hty : test_visual !! "type" = Some (PStr "visual"))
    by (vm_compute; reflexivity).
  split; [exact Hok|]. split; [exact Hty|]. split; [reflexivity|].
  split; [reflexivity|].
  exact (no_hardware_call test_visual (PStr "visual") w Hok Hty eq_refl eq_refl).
Defined.

Lemma missing_hardware_key_witness :
  let item : dict :=
    list_to_map [("id", PStr "brake_test"); ("name", PStr "Emergency Brake Test");
                 ("type", PStr "mechanical")] in
  let w := Mock.returning (float_of 30 1) (PBool true) in
  item_ok item = true
  /\ (("mechanical", "component_id") = ("sensor", "sensor_id")
      \/ ("mechanical", "component_id") = ("mechanical", "component_id"))
  /\ item !! "type" = Some (PStr "mechanical")
  /\ item !! "component_id" = None
  /\ exists r,
       run_inspection [item] w = (Ok [r], (now_isoformat w).2)
       /\ r !! "status" = Some (PStr "error")
       /\ r !! "error" = Some (PStr ("'" +:+ "component_id" +:+ "'"))
       /\ r !! "value" = Some PNone.
Proof.
  intros item w.
  assert (Hok : item_ok item = true) by (vm_compute; reflexivity).
  assert (Hty : item !! "type" = Some (PStr "mechanical")) by (vm_compute; reflexivity).
  assert (Hkey : item !! "component_id" = None) by (vm_compute; reflexivity).
  assert (Hkind : ("mechanical", "component_id") = ("sensor", "sensor_id")
                  \/ ("mechanical", "component_id") = ("mechanical", "component_id"))
    by (right; reflexivity).
  split; [exact Hok|]. split; [exact Hkind|]. split; [exact Hty|]. split; [exact Hkey|].
  exact (missing_hardware_key item "mechanical" "component_id" w Hok Hkind Hty Hkey).
Defined.

Lemma simulated_reading_never_fails_witness :
  let w := world_of default_interface in
  let config := typed_sensor "temperature"
                  [("location", PStr "motor"); ("unit", PStr "celsius")] in
  let d : dict :=
    list_to_map [("min_warning", PInt 50); ("max_warning", PInt 70);
                 ("max_critical", PInt 85)] in
  item_ok motor_temp = true
  /\ motor_temp !! "type" = Some (PStr "sensor")
  /\ motor_temp !! "sensor_id" = Some (PStr "temp_motor")
  /\ motor_temp !! "thresholds" = Some (PDict d)
  /\ finite_bounds d = true
  /\ Sim.connected (Sim.handle w) = true
  /\ Sim.connected_sensors (Sim.manager (Sim.handle w)) !! "temp_motor"
     = Some (Sim.sensor_entry (PStr "temperature") config)
  /\ reading_range "temperature" = Some (35%Q, 50%Q)
  /\ @fixes truncating 35 /\ @fixes truncating 50 /\ @fixes truncating (50 - 35)
  /\ unit_draw (Sim.draws (Sim.generator w) (Sim.drawn (Sim.generator w)))
  /\ at_least 35 (bound_of d "min_critical")
  /\ at_most 50 (bound_of d "max_critical")
  /\ exists r w' q,
       @run_inspection _ (@Sim.elevator truncating) [motor_temp] w = (Ok [r], w')
       /\ r !! "value" = Some (PFloat (FFin q))
       /\ (35 <= q <= 50)%Q
       /\ (r !! "status" = Some (PStr "pass") \/ r !! "status" = Some (PStr "warning")).
Proof.
  intros w config d.
  assert (Hok : item_ok motor_temp = true) by (vm_compute; reflexivity).
  assert (Hty : motor_temp !! "type" = Some (PStr "sensor")) by (vm_compute; reflexivity).
  assert (Hsid : motor_temp !! "sensor_id" = Some (PStr "temp_motor"))
    by (vm_compute; reflexivity).
  assert (Hth : motor_temp !! "thresholds" = Some (PDict d)) by (vm_compute; reflexivity).
  assert (Hd : finite_bounds d = true) by (vm_compute; reflexivity).
  assert (Hon : Sim.connected (Sim.handle w) = true) by (vm_compute; reflexivity).
  assert (Hm : Sim.connected_sensors (Sim.manager (Sim.handle w)) !! "temp_motor"
               = Some (Sim.sensor_entry (PStr "temperature") config))
    by (vm_compute; reflexivity).
  assert (H35 : @fixes truncating 35) by (vm_compute; reflexivity).
  assert (H50 : @fixes truncating 50) by (vm_compute; reflexivity).
  assert (H15 : @fixes truncating (50 - 35)) by (vm_compute; reflexivity).
  assert (Hu : unit_draw (Sim.draws (Sim.generator w) (Sim.drawn (Sim.generator w))))
    by (split; [discriminate | reflexivity]).
  assert (Hmin : at_least 35 (bound_of d "min_critical")) by (vm_compute; exact I).
  assert (Hmax : at_most 50 (bound_of d "max_critical")) by (vm_compute; discriminate).
  repeat (split; [first [assumption | reflexivity]|]).
  exact (@simulated_reading_never_fails truncating motor_temp w "temp_motor" "temperature"
           config 35 50 d Hok Hty Hsid Hth Hd Hon Hm eq_refl H35 H50 H15 Hu Hmin Hmax).
Defined.

(** The constructor connects all seven sensors of the default hardware
    configuration. *)
Example default_hardware_connects :
  Sim.new_interface (PStr "ELEV-001") default_hardware = Ok default_interface
  /\ Sim.connected default_interface = true
  /\ size (Sim.connected_sensors (Sim.manager default_interface)) = 7.
Proof. repeat split; vm_compute; reflexivity. Qed.

(** A run against the simulated hardware with every draw at a third: the
    motor is under its lower warning bound, the two sensor items without
    thresholds are errors, and the rest passes. *)
Example simulated_run :
  statuses (@run_inspection _ (@Sim.elevator truncating) default_checklist_items
              (world_of default_interface)).1
  = map (fun s => Some (PStr s))
      ["warning"; "pass"; "pass"; "pass"; "pass"; "error"; "error"; "pass"; "pass";
       "pass"].
Proof. vm_compute. reflexivity. Qed.
